(** * gollvm: DWARF debug descriptors and their memoised lowering

    A shallow embedding of [llvm/debug.go], of the C++ glue
    [llvm/debug2.cpp] and of [Builder.InsertDeclare], followed by the
    properties of the descriptor lowering that the design document states.

    Conventions.
    - Go's fixed-width integers are [Z] with the wrap-around of each
      conversion and operation written out ([uint64], [add64], [shl64]).
    - A Go pointer is an address ([N]) into a heap of descriptor objects, or
      [None] for the nil pointer.  A [DebugDescriptor] interface value is either
      the nil interface or a dynamic type together with a pointer: this is what
      Go compares when an interface value is used as a map key.
    - Code that threads [*DebugInfo] through recursive calls is written in a
      state-and-failure monad; recursion through the descriptor graph is
      bounded by a fuel argument that is spent only when a descriptor's own
      [mdNode] is entered. *)

From Stdlib Require Import ZArith String Ascii List Lia.
From stdpp Require Import base option countable gmap list.

Local Open Scope Z_scope.
Local Set Warnings "-register-all".

(** ** Machine integers *)

Definition uint64 (x : Z) : Z := x mod 2 ^ 64.
Definition add64 (x y : Z) : Z := (x + y) mod 2 ^ 64.
Definition or64 (x y : Z) : Z := Z.lor x y.
Definition shl64 (x k : Z) : Z := Z.shiftl x k mod 2 ^ 64.

Definition is_uint32 (x : Z) : Prop := 0 <= x < 2 ^ 32.
Definition is_uint32b (x : Z) : bool := (0 <=? x) && (x <? 2 ^ 32).

(** ** Common types and constants *)

Definition LLVMDebugVersion : Z := Z.shiftl 12 16.

Definition DwarfTag := Z.

Definition DW_TAG_lexical_block : DwarfTag := 0x0b.
Definition DW_TAG_compile_unit : DwarfTag := 0x11.
Definition DW_TAG_variable : DwarfTag := 0x34.
Definition DW_TAG_base_type : DwarfTag := 0x24.
Definition DW_TAG_pointer_type : DwarfTag := 0x0F.
Definition DW_TAG_structure_type : DwarfTag := 0x13.
Definition DW_TAG_subroutine_type : DwarfTag := 0x15.
Definition DW_TAG_file_type : DwarfTag := 0x29.
Definition DW_TAG_subprogram : DwarfTag := 0x2E.
Definition DW_TAG_auto_variable : DwarfTag := 0x100.
Definition DW_TAG_arg_variable : DwarfTag := 0x101.

(** [FlagPrivate = 1 << iota] and the following lines of the same block. *)
Definition Flag (iota : Z) : Z := Z.shiftl 1 iota.
Definition FlagPrivate : Z := Flag 0.
Definition FlagProtected : Z := Flag 1.
Definition FlagFwdDecl : Z := Flag 2.
Definition FlagAppleBlock : Z := Flag 3.
Definition FlagBlockByrefStruct : Z := Flag 4.
Definition FlagVirtual : Z := Flag 5.
Definition FlagArtificial : Z := Flag 6.
Definition FlagExplicit : Z := Flag 7.
Definition FlagPrototyped : Z := Flag 8.
Definition FlagObjcClassComplete : Z := Flag 9.
Definition FlagObjectPointer : Z := Flag 10.
Definition FlagVector : Z := Flag 11.
Definition FlagStaticMember : Z := Flag 12.
Definition FlagIndirectVariable : Z := Flag 13.

Definition DwarfLang := Z.
Definition DW_LANG_Go : DwarfLang := 0x0016.

Definition DwarfTypeEncoding := Z.
Definition DW_ATE_address : DwarfTypeEncoding := 0x01.
Definition DW_ATE_boolean : DwarfTypeEncoding := 0x02.
Definition DW_ATE_complex_float : DwarfTypeEncoding := 0x03.
Definition DW_ATE_float : DwarfTypeEncoding := 0x04.
Definition DW_ATE_signed : DwarfTypeEncoding := 0x05.
Definition DW_ATE_signed_char : DwarfTypeEncoding := 0x06.
Definition DW_ATE_unsigned : DwarfTypeEncoding := 0x07.
Definition DW_ATE_unsigned_char : DwarfTypeEncoding := 0x08.
Definition DW_ATE_imaginary_float : DwarfTypeEncoding := 0x09.
Definition DW_ATE_packed_decimal : DwarfTypeEncoding := 0x0a.
Definition DW_ATE_numeric_string : DwarfTypeEncoding := 0x0b.
Definition DW_ATE_edited : DwarfTypeEncoding := 0x0c.
Definition DW_ATE_signed_fixed : DwarfTypeEncoding := 0x0d.
Definition DW_ATE_unsigned_fixed : DwarfTypeEncoding := 0x0e.
Definition DW_ATE_decimal_float : DwarfTypeEncoding := 0x0f.
Definition DW_ATE_UTF : DwarfTypeEncoding := 0x10.
Definition DW_ATE_lo_user : DwarfTypeEncoding := 0x80.
Definition DW_ATE_hi_user : DwarfTypeEncoding := 0xff.

(** ** Values of the code-generation library *)

(** Modelled from the spec: the integer types of the code-generation library
    ([Int1Type], [Int32Type], [Int64Type]); only their identity matters. *)
Inductive Type_ : Set := Int1Type | Int32Type | Int64Type.

(** Modelled from the spec: the node builder of the code-generation library
    (make-integer-constant, make-metadata-string, make-metadata-node,
    make-null-constant, make-all-ones-constant), which is not among the
    sources.  Its constructors are kept uninterpreted: a value records which
    primitive built it and from which arguments, so equality of values is
    equality of what the lowering asked the library to build.  [ValueNil] is
    Go's [Value{nil}]; [Handle] stands for any value made elsewhere (a
    function, a global, a call instruction). *)
Inductive Value : Type :=
| ValueNil
| ConstInt (t : Type_) (n : Z) (signExtend : bool)
| ConstNull (t : Type_)
| ConstAllOnes (t : Type_)
| MDString (s : string)
| MDNode (vals : list Value)
| Handle (h : N).

(** [Value.IsNil]: the wrapped reference is the null reference. *)
Definition IsNil (v : Value) : bool :=
  match v with ValueNil => true | _ => false end.

(** The fields of a metadata node, for stating layouts. *)
Definition operands (v : Value) : list Value :=
  match v with MDNode vals => vals | _ => [] end.

Definition operand (i : nat) (v : Value) : option Value := operands v !! i.

(** ** Panics *)

Inductive result (A : Type) : Type :=
| Ok (a : A)
| Panic (msg : string).
Arguments Ok {A} a.
Arguments Panic {A} msg.

(** ** Descriptor references *)

(** The dynamic types that implement [DebugDescriptor]; every one of them is a
    pointer type, since all methods have pointer receivers. *)
Inductive GoType : Set :=
| PBasicTypeDescriptor
| PCompositeTypeDescriptor
| PCompileUnitDescriptor
| PDerivedTypeDescriptor
| PSubprogramDescriptor
| PGlobalVariableDescriptor
| PLocalVariableDescriptor
| PFileDescriptor
| PLineDescriptor
| PContextDescriptor
| PBlockDescriptor.

Definition pointer := option N.

(** An interface value: [nil_interface] is Go's [nil]; [boxed ty None] is a
    nil pointer of type [ty] stored in a non-nil interface. *)
Inductive DebugDescriptor : Set :=
| nil_interface
| boxed (ty : GoType) (p : pointer).

Definition GoType_code (ty : GoType) : nat :=
  match ty with
  | PBasicTypeDescriptor => 0 | PCompositeTypeDescriptor => 1
  | PCompileUnitDescriptor => 2 | PDerivedTypeDescriptor => 3
  | PSubprogramDescriptor => 4 | PGlobalVariableDescriptor => 5
  | PLocalVariableDescriptor => 6 | PFileDescriptor => 7
  | PLineDescriptor => 8 | PContextDescriptor => 9
  | PBlockDescriptor => 10
  end%nat.

Definition GoType_decode (n : nat) : GoType :=
  match n with
  | 0 => PBasicTypeDescriptor | 1 => PCompositeTypeDescriptor
  | 2 => PCompileUnitDescriptor | 3 => PDerivedTypeDescriptor
  | 4 => PSubprogramDescriptor | 5 => PGlobalVariableDescriptor
  | 6 => PLocalVariableDescriptor | 7 => PFileDescriptor
  | 8 => PLineDescriptor | 9 => PContextDescriptor
  | _ => PBlockDescriptor
  end%nat.

#[global] Instance GoType_eq_dec : EqDecision GoType.
Proof. solve_decision. Defined.

#[global] Instance GoType_countable : Countable GoType.
Proof.
  apply (inj_countable' GoType_code GoType_decode).
  intros []; reflexivity.
Defined.

#[global] Instance DebugDescriptor_eq_dec : EqDecision DebugDescriptor.
Proof. solve_decision. Defined.

Definition DebugDescriptor_code (d : DebugDescriptor) : option (GoType * option N) :=
  match d with
  | nil_interface => None
  | boxed ty p => Some (ty, p)
  end.

Definition DebugDescriptor_decode (c : option (GoType * option N)) : DebugDescriptor :=
  match c with
  | None => nil_interface
  | Some (ty, p) => boxed ty p
  end.

#[global] Instance DebugDescriptor_countable : Countable DebugDescriptor.
Proof.
  apply (inj_countable' DebugDescriptor_code DebugDescriptor_decode).
  intros []; reflexivity.
Defined.

(** [d == nil || reflect.ValueOf(d).IsNil()] *)
Definition is_nil (d : DebugDescriptor) : bool :=
  match d with
  | nil_interface => true
  | boxed _ None => true
  | boxed _ (Some _) => false
  end.

(** Conversion of a [*FileDescriptor] to the interface type. *)
Definition of_file (p : pointer) : DebugDescriptor := boxed PFileDescriptor p.

(** ** The lowering state *)

Record DebugInfo : Type := { cache : option (gmap DebugDescriptor Value) }.

(** The state threaded through a lowering: the [DebugInfo] itself and a ghost
    trace, which lists in call order the receivers on which [DebugInfo.MDNode]
    invoked [mdNode].  The trace is never read by the code. *)
Record State : Type := { info : DebugInfo; invoked : list DebugDescriptor }.

Definition M (A : Type) : Type := State -> option (A * State).

Definition ret {A} (a : A) : M A := fun st => Some (a, st).

Definition bind {A B} (m : M A) (k : A -> M B) : M B :=
  fun st => match m st with
            | Some (a, st') => k a st'
            | None => None
            end.

Notation "x <- m ;; k" := (bind m (fun x => k))
  (at level 100, m at next level, right associativity).

(** [info.cache[d]] read: reading a nil map finds nothing. *)
Definition cached (st : State) (d : DebugDescriptor) : option Value :=
  match cache (info st) with
  | Some m => m !! d
  | None => None
  end.

(** [if info.cache == nil { info.cache = make(...) }] *)
Definition make_cache (st : State) : State :=
  match cache (info st) with
  | Some _ => st
  | None => {| info := {| cache := Some ∅ |}; invoked := invoked st |}
  end.

(** [info.cache[d] = value]; the map has been made before. *)
Definition store (d : DebugDescriptor) (v : Value) (st : State) : State :=
  {| info := {| cache := Some (<[d := v]> (default ∅ (cache (info st)))) |};
     invoked := invoked st |}.

(** Ghost: note that [d.mdNode] is being entered. *)
Definition enter (d : DebugDescriptor) (st : State) : State :=
  {| info := info st; invoked := invoked st ++ [d] |}.

(** How often [d.mdNode] has been invoked by the cache. *)
Definition invocations (d : DebugDescriptor) (st : State) : nat :=
  count_occ DebugDescriptor_eq_dec (invoked st) d.

(** ** Utility functions *)

Definition constInt1 (v : bool) : Value :=
  if v then ConstAllOnes Int1Type else ConstNull Int1Type.

Section Lowering.

(** The method [DebugInfo.MDNode], as seen from a descriptor's [mdNode]:
    the bodies below are closed by [DebugInfo_MDNode] further down. *)
Variable info_MDNode : DebugDescriptor -> M Value.

(** The loop [for i := 0; i < n; i++ { v[i] = info.MDNode(d[i]) }]. *)
Fixpoint MDNodes_loop (d : list DebugDescriptor) : M (list Value) :=
  match d with
  | [] => ret []
  | x :: d' =>
      v <- info_MDNode x ;;
      vs <- MDNodes_loop d' ;;
      ret (v :: vs)
  end.

(** [DebugInfo.MDNodes]; Go's nil slice and empty slice are both [[]]. *)
Definition info_MDNodes (d : list DebugDescriptor) : M (list Value) :=
  if (0 <? length d)%nat then MDNodes_loop d else ret [].

End Lowering.

(** ** Files *)

Module path.

(** [path.Split] of Go's standard library: it splits immediately after the
    final slash; without a slash the directory is empty and the file is the
    whole path.  [LastIndexByte] is the search it is built on. *)
Fixpoint LastIndexByte (s : string) (c : ascii) : option nat :=
  match s with
  | EmptyString => None
  | String a s' =>
      match LastIndexByte s' c with
      | Some i => Some (S i)
      | None => if Ascii.eqb a c then Some 0%nat else None
      end
  end.

(** [-1] when [c] does not occur. *)
Definition LastIndex (s : string) (c : ascii) : Z :=
  match LastIndexByte s c with
  | Some i => Z.of_nat i
  | None => -1
  end.

(** The slice expression [s[lo:hi]]. *)
Definition slice (s : string) (lo hi : Z) : string :=
  substring (Z.to_nat lo) (Z.to_nat (hi - lo)) s.

Definition len (s : string) : Z := Z.of_nat (String.length s).

Definition Split (p : string) : string * string :=
  let i := LastIndex p "/"%char in
  (slice p 0 (i + 1), slice p (i + 1) (len p)).

End path.

Module FileDescriptor.

Definition t := string.

Definition Tag (d : t) : DwarfTag := DW_TAG_file_type.

(** The [info] argument is not used; callers pass [nil] or the cache. *)
Definition mdNode (d : t) : Value :=
  let '(dirname, filename) := path.Split d in
  let l := path.len dirname in
  let dirname :=
    if (0 <? l) && (match String.get (Z.to_nat (l - 1)) dirname with
                    | Some c => Ascii.eqb c "/"%char
                    | None => false
                    end)
    then path.slice dirname 0 (l - 1)
    else dirname in
  MDNode [MDString filename; MDString dirname].

End FileDescriptor.

(** ** Basic types *)

Module BasicTypeDescriptor.

Record t : Type := mk {
  Context : DebugDescriptor;
  Name : string;
  File : pointer;
  Line : Z;
  Size : Z;
  Alignment : Z;
  Offset : Z;
  Flags : Z;
  TypeEncoding : DwarfTypeEncoding
}.

Definition Tag (d : t) : DwarfTag := DW_TAG_base_type.

Definition mdNode (info_MDNode : DebugDescriptor -> M Value) (d : t) : M Value :=
  file <- info_MDNode (of_file (File d)) ;;
  context <- info_MDNode (Context d) ;;
  ret (MDNode [
    ConstInt Int32Type (add64 LLVMDebugVersion (uint64 (Tag d))) false;
    file;
    context;
    MDString (Name d);
    ConstInt Int32Type (uint64 (Line d)) false;
    ConstInt Int64Type (Size d) false;
    ConstInt Int64Type (Alignment d) false;
    ConstInt Int64Type (Offset d) false;
    ConstInt Int32Type (uint64 (Flags d)) false;
    ConstInt Int32Type (uint64 (TypeEncoding d)) false]).

End BasicTypeDescriptor.

(** ** Composite types *)

Module CompositeTypeDescriptor.

Record t : Type := mk {
  tag : DwarfTag;
  Context : DebugDescriptor;
  Name : string;
  File : pointer;
  Line : Z;
  Size : Z;
  Alignment : Z;
  Offset : Z;
  Flags : Z;
  Members : list DebugDescriptor
}.

Definition Tag (d : t) : DwarfTag := tag d.

Definition mdNode (info_MDNode : DebugDescriptor -> M Value) (d : t) : M Value :=
  file <- info_MDNode (of_file (File d)) ;;
  context <- info_MDNode (Context d) ;;
  derived <- info_MDNode nil_interface ;;
  members <- info_MDNodes info_MDNode (Members d) ;;
  ret (MDNode [
    ConstInt Int32Type (add64 LLVMDebugVersion (uint64 (Tag d))) false;
    file;
    context;
    MDString (Name d);
    ConstInt Int32Type (uint64 (Line d)) false;
    ConstInt Int64Type (Size d) false;
    ConstInt Int64Type (Alignment d) false;
    ConstInt Int64Type (Offset d) false;
    ConstInt Int32Type (uint64 (Flags d)) false;
    derived;
    MDNode members;
    ConstInt Int32Type (uint64 0) false;
    ConstInt Int32Type (uint64 0) false]).

(** [new(CompositeTypeDescriptor)]: every field has its zero value. *)
Definition new : t :=
  {| tag := 0; Context := nil_interface; Name := EmptyString; File := None;
     Line := 0; Size := 0; Alignment := 0; Offset := 0; Flags := 0;
     Members := [] |}.

Definition set_tag (v : DwarfTag) (d : t) : t :=
  {| tag := v; Context := Context d; Name := Name d; File := File d;
     Line := Line d; Size := Size d; Alignment := Alignment d;
     Offset := Offset d; Flags := Flags d; Members := Members d |}.

Definition set_Members (v : list DebugDescriptor) (d : t) : t :=
  {| tag := tag d; Context := Context d; Name := Name d; File := File d;
     Line := Line d; Size := Size d; Alignment := Alignment d;
     Offset := Offset d; Flags := Flags d; Members := v |}.

End CompositeTypeDescriptor.

(** [make([]DebugDescriptor, n)]: [n] nil interfaces. *)
Definition make_descriptors (n : nat) : list DebugDescriptor :=
  repeat nil_interface n.

(** The builtin [copy(dst, src)]: overwrites the first
    [min (len dst) (len src)] elements of [dst]. *)
Fixpoint copy (dst src : list DebugDescriptor) : list DebugDescriptor :=
  match dst, src with
  | _ :: dst', x :: src' => x :: copy dst' src'
  | _, _ => dst
  end.

Definition NewStructCompositeType (Members : list DebugDescriptor)
  : CompositeTypeDescriptor.t :=
  let d := CompositeTypeDescriptor.new in
  let d := CompositeTypeDescriptor.set_tag DW_TAG_structure_type d in
  let d := CompositeTypeDescriptor.set_Members Members d in
  d.

(** [d.Members[0] = Result] cannot be out of range, the slice has at least
    one element; [copy(d.Members[1:], Params)] writes through the sub-slice
    into the same backing array. *)
Definition NewSubroutineCompositeType (Result : DebugDescriptor)
    (Params : list DebugDescriptor) : CompositeTypeDescriptor.t :=
  let d := CompositeTypeDescriptor.new in
  let d := CompositeTypeDescriptor.set_tag DW_TAG_subroutine_type d in
  let members := make_descriptors (length Params + 1) in
  let members := <[0%nat := Result]> members in
  let members := take 1 members ++ copy (drop 1 members) Params in
  let d := CompositeTypeDescriptor.set_Members members d in
  d.

(** ** Compilation unit *)

Module CompileUnitDescriptor.

Record t : Type := mk {
  Path : FileDescriptor.t;
  Language : DwarfLang;
  Producer : string;
  Optimized : bool;
  CompilerFlags : string;
  Runtime : Z;
  EnumTypes : list DebugDescriptor;
  RetainedTypes : list DebugDescriptor;
  Subprograms : list DebugDescriptor;
  GlobalVariables : list DebugDescriptor
}.

Definition Tag (d : t) : DwarfTag := DW_TAG_compile_unit.

(** [d.Path.mdNode(nil)] is a direct call on the embedded file, which is a
    field of [d] and not a descriptor of its own in the heap. *)
Definition mdNode (info_MDNode : DebugDescriptor -> M Value) (d : t) : M Value :=
  let file := FileDescriptor.mdNode (Path d) in
  enums <- info_MDNodes info_MDNode (EnumTypes d) ;;
  retained <- info_MDNodes info_MDNode (RetainedTypes d) ;;
  subprograms <- info_MDNodes info_MDNode (Subprograms d) ;;
  globals <- info_MDNodes info_MDNode (GlobalVariables d) ;;
  ret (MDNode [
    ConstInt Int32Type (add64 (uint64 (Tag d)) LLVMDebugVersion) false;
    file;
    ConstInt Int32Type (uint64 (Language d)) false;
    MDString (Producer d);
    constInt1 (Optimized d);
    MDString (CompilerFlags d);
    ConstInt Int32Type (uint64 (Runtime d)) false;
    MDNode enums;
    MDNode retained;
    MDNode subprograms;
    MDNode globals;
    MDNode [];
    MDString EmptyString]).

End CompileUnitDescriptor.

(** ** Derived types *)

Module DerivedTypeDescriptor.

Record t : Type := mk {
  tag : DwarfTag;
  Context : DebugDescriptor;
  Name : string;
  File : pointer;
  Line : Z;
  Size : Z;
  Alignment : Z;
  Offset : Z;
  Flags : Z;
  Base : DebugDescriptor
}.

Definition Tag (d : t) : DwarfTag := tag d.

Definition mdNode (info_MDNode : DebugDescriptor -> M Value) (d : t) : M Value :=
  file <- info_MDNode (of_file (File d)) ;;
  context <- info_MDNode (Context d) ;;
  base <- info_MDNode (Base d) ;;
  ret (MDNode [
    ConstInt Int32Type (add64 LLVMDebugVersion (uint64 (Tag d))) false;
    file;
    context;
    MDString (Name d);
    ConstInt Int32Type (uint64 (Line d)) false;
    ConstInt Int64Type (Size d) false;
    ConstInt Int64Type (Alignment d) false;
    ConstInt Int64Type (Offset d) false;
    ConstInt Int32Type (uint64 (Flags d)) false;
    base]).

End DerivedTypeDescriptor.

Definition NewPointerDerivedType (Base : DebugDescriptor)
  : DerivedTypeDescriptor.t :=
  {| DerivedTypeDescriptor.tag := DW_TAG_pointer_type;
     DerivedTypeDescriptor.Context := nil_interface;
     DerivedTypeDescriptor.Name := EmptyString;
     DerivedTypeDescriptor.File := None;
     DerivedTypeDescriptor.Line := 0;
     DerivedTypeDescriptor.Size := 0;
     DerivedTypeDescriptor.Alignment := 0;
     DerivedTypeDescriptor.Offset := 0;
     DerivedTypeDescriptor.Flags := 0;
     DerivedTypeDescriptor.Base := Base |}.

(** ** Subprograms *)

Module SubprogramDescriptor.

Record t : Type := mk {
  Context : DebugDescriptor;
  Name : string;
  DisplayName : string;
  Type_ : DebugDescriptor;
  Line : Z;
  Function : Value;
  Path : FileDescriptor.t;
  ScopeLine : Z
}.

Definition Tag (d : t) : DwarfTag := DW_TAG_subprogram.

Definition mdNode (info_MDNode : DebugDescriptor -> M Value) (d : t) : M Value :=
  let file := FileDescriptor.mdNode (Path d) in
  context <- info_MDNode (Context d) ;;
  type <- info_MDNode (Type_ d) ;;
  vtable <- info_MDNode nil_interface ;;
  templates <- info_MDNode nil_interface ;;
  declaration <- info_MDNode nil_interface ;;
  ret (MDNode [
    ConstInt Int32Type (add64 LLVMDebugVersion (uint64 (Tag d))) false;
    file;
    context;
    MDString (Name d);
    MDString (DisplayName d);
    MDString EmptyString;
    ConstInt Int32Type (uint64 (Line d)) false;
    type;
    ConstNull Int1Type;
    ConstAllOnes Int1Type;
    ConstNull Int32Type;
    ConstNull Int32Type;
    vtable;
    ConstInt Int32Type FlagPrototyped false;
    ConstNull Int1Type;
    Function d;
    templates;
    declaration;
    MDNode [];
    ConstInt Int32Type (uint64 (ScopeLine d)) false]).

End SubprogramDescriptor.

(** ** Global variables *)

Module GlobalVariableDescriptor.

Record t : Type := mk {
  Context : DebugDescriptor;
  Name : string;
  DisplayName : string;
  File : pointer;
  Line : Z;
  Type_ : DebugDescriptor;
  Local : bool;
  External : bool;
  Value_ : Value
}.

Definition Tag (d : t) : DwarfTag := DW_TAG_variable.

Definition mdNode (info_MDNode : DebugDescriptor -> M Value) (d : t) : M Value :=
  context <- info_MDNode (Context d) ;;
  file <- info_MDNode (of_file (File d)) ;;
  type <- info_MDNode (Type_ d) ;;
  ret (MDNode [
    ConstInt Int32Type (add64 (uint64 (Tag d)) LLVMDebugVersion) false;
    ConstNull Int32Type;
    context;
    MDString (Name d);
    MDString (DisplayName d);
    MDNode [];
    file;
    ConstInt Int32Type (uint64 (Line d)) false;
    type;
    constInt1 (Local d);
    constInt1 (negb (External d));
    Value_ d]).

End GlobalVariableDescriptor.

(** ** Local variables *)

Module LocalVariableDescriptor.

Record t : Type := mk {
  tag : DwarfTag;
  Context : DebugDescriptor;
  Name : string;
  File : DebugDescriptor;
  Line : Z;
  Argument : Z;
  Type_ : DebugDescriptor
}.

Definition Tag (d : t) : DwarfTag := tag d.

Definition mdNode (info_MDNode : DebugDescriptor -> M Value) (d : t) : M Value :=
  context <- info_MDNode (Context d) ;;
  file <- info_MDNode (File d) ;;
  type <- info_MDNode (Type_ d) ;;
  ret (MDNode [
    ConstInt Int32Type (add64 (uint64 (Tag d)) LLVMDebugVersion) false;
    context;
    MDString (Name d);
    file;
    ConstInt Int32Type
      (or64 (uint64 (Line d)) (shl64 (uint64 (Argument d)) 24)) false;
    type;
    ConstNull Int32Type;
    ConstNull Int32Type]).

End LocalVariableDescriptor.

Definition NewLocalVariableDescriptor (tag : DwarfTag)
  : LocalVariableDescriptor.t :=
  {| LocalVariableDescriptor.tag := tag;
     LocalVariableDescriptor.Context := nil_interface;
     LocalVariableDescriptor.Name := EmptyString;
     LocalVariableDescriptor.File := nil_interface;
     LocalVariableDescriptor.Line := 0;
     LocalVariableDescriptor.Argument := 0;
     LocalVariableDescriptor.Type_ := nil_interface |}.

(** ** Line *)

Module LineDescriptor.

Record t : Type := mk {
  Line : Z;
  Column : Z;
  Context : DebugDescriptor
}.

Definition Tag (d : t) : result DwarfTag :=
  Panic "LineDescriptor.Tag should never be called".

Definition mdNode (info_MDNode : DebugDescriptor -> M Value) (d : t) : M Value :=
  context <- info_MDNode (Context d) ;;
  inlined <- info_MDNode nil_interface ;;
  ret (MDNode [
    ConstInt Int32Type (uint64 (Line d)) false;
    ConstInt Int32Type (uint64 (Column d)) false;
    context;
    inlined]).

End LineDescriptor.

(** ** Context *)

Module ContextDescriptor.

(** [struct{ FileDescriptor }]: the embedded file brings its [Tag]. *)
Record t : Type := mk { FileDescriptor_ : FileDescriptor.t }.

Definition Tag (d : t) : DwarfTag := FileDescriptor.Tag (FileDescriptor_ d).

Definition mdNode (info_MDNode : DebugDescriptor -> M Value) (d : t) : M Value :=
  ret (MDNode [
    ConstInt Int32Type (add64 (uint64 (Tag d)) LLVMDebugVersion) false;
    FileDescriptor.mdNode (FileDescriptor_ d)]).

End ContextDescriptor.

(** ** Block *)

Module BlockDescriptor.

Record t : Type := mk {
  File : pointer;
  Context : DebugDescriptor;
  Line : Z;
  Column : Z;
  Id : Z
}.

Definition Tag (d : t) : DwarfTag := DW_TAG_lexical_block.

Definition mdNode (info_MDNode : DebugDescriptor -> M Value) (d : t) : M Value :=
  file <- info_MDNode (of_file (File d)) ;;
  context <- info_MDNode (Context d) ;;
  ret (MDNode [
    ConstInt Int32Type (add64 (uint64 (Tag d)) LLVMDebugVersion) false;
    file;
    context;
    ConstInt Int32Type (uint64 (Line d)) false;
    ConstInt Int32Type (uint64 (Column d)) false;
    ConstInt Int32Type (uint64 (Id d)) false]).

End BlockDescriptor.

(** ** The descriptor heap and the interface methods *)

(** What a non-nil descriptor pointer points to. *)
Inductive Object : Type :=
| OBasicType (d : BasicTypeDescriptor.t)
| OCompositeType (d : CompositeTypeDescriptor.t)
| OCompileUnit (d : CompileUnitDescriptor.t)
| ODerivedType (d : DerivedTypeDescriptor.t)
| OSubprogram (d : SubprogramDescriptor.t)
| OGlobalVariable (d : GlobalVariableDescriptor.t)
| OLocalVariable (d : LocalVariableDescriptor.t)
| OFile (d : FileDescriptor.t)
| OLine (d : LineDescriptor.t)
| OContext (d : ContextDescriptor.t)
| OBlock (d : BlockDescriptor.t).

Definition dynamic_type (o : Object) : GoType :=
  match o with
  | OBasicType _ => PBasicTypeDescriptor
  | OCompositeType _ => PCompositeTypeDescriptor
  | OCompileUnit _ => PCompileUnitDescriptor
  | ODerivedType _ => PDerivedTypeDescriptor
  | OSubprogram _ => PSubprogramDescriptor
  | OGlobalVariable _ => PGlobalVariableDescriptor
  | OLocalVariable _ => PLocalVariableDescriptor
  | OFile _ => PFileDescriptor
  | OLine _ => PLineDescriptor
  | OContext _ => PContextDescriptor
  | OBlock _ => PBlockDescriptor
  end.

(** Following a descriptor reference.  Go's type system and garbage collector
    make the two [None] cases for a non-nil pointer unreachable: a pointer
    always leads to a live object of its static type. *)
Definition deref (heap : gmap N Object) (d : DebugDescriptor) : option Object :=
  match d with
  | boxed ty (Some a) =>
      match heap !! a with
      | Some o => if decide (dynamic_type o = ty) then Some o else None
      | None => None
      end
  | _ => None
  end.

(** [DebugDescriptor.Tag], dispatched on the dynamic type. *)
Definition Tag (o : Object) : result DwarfTag :=
  match o with
  | OBasicType d => Ok (BasicTypeDescriptor.Tag d)
  | OCompositeType d => Ok (CompositeTypeDescriptor.Tag d)
  | OCompileUnit d => Ok (CompileUnitDescriptor.Tag d)
  | ODerivedType d => Ok (DerivedTypeDescriptor.Tag d)
  | OSubprogram d => Ok (SubprogramDescriptor.Tag d)
  | OGlobalVariable d => Ok (GlobalVariableDescriptor.Tag d)
  | OLocalVariable d => Ok (LocalVariableDescriptor.Tag d)
  | OFile d => Ok (FileDescriptor.Tag d)
  | OLine d => LineDescriptor.Tag d
  | OContext d => Ok (ContextDescriptor.Tag d)
  | OBlock d => Ok (BlockDescriptor.Tag d)
  end.

(** [DebugDescriptor.mdNode], dispatched on the dynamic type. *)
Definition mdNode (info_MDNode : DebugDescriptor -> M Value) (o : Object)
  : M Value :=
  match o with
  | OBasicType d => BasicTypeDescriptor.mdNode info_MDNode d
  | OCompositeType d => CompositeTypeDescriptor.mdNode info_MDNode d
  | OCompileUnit d => CompileUnitDescriptor.mdNode info_MDNode d
  | ODerivedType d => DerivedTypeDescriptor.mdNode info_MDNode d
  | OSubprogram d => SubprogramDescriptor.mdNode info_MDNode d
  | OGlobalVariable d => GlobalVariableDescriptor.mdNode info_MDNode d
  | OLocalVariable d => LocalVariableDescriptor.mdNode info_MDNode d
  | OFile d => ret (FileDescriptor.mdNode d)
  | OLine d => LineDescriptor.mdNode info_MDNode d
  | OContext d => ContextDescriptor.mdNode info_MDNode d
  | OBlock d => BlockDescriptor.mdNode info_MDNode d
  end.

(** ** The lowering cache *)

(** [DebugInfo.MDNode].  The result is [None] when the fuel does not suffice
    (the recursion is deeper than [fuel]) or a pointer dangles. *)
Fixpoint DebugInfo_MDNode (heap : gmap N Object) (fuel : nat)
    (d : DebugDescriptor) : M Value :=
  fun st =>
    if is_nil d then Some (ValueNil, st)
    else
      let st := make_cache st in
      match cached st d with
      | Some value => Some (value, st)
      | None =>
          match fuel with
          | O => None
          | S fuel' =>
              match deref heap d with
              | None => None
              | Some o =>
                  match mdNode (DebugInfo_MDNode heap fuel') o (enter d st) with
                  | Some (value, st') => Some (value, store d value st')
                  | None => None
                  end
              end
          end
      end.

(** [DebugInfo.MDNodes]. *)
Definition DebugInfo_MDNodes (heap : gmap N Object) (fuel : nat)
    (d : list DebugDescriptor) : M (list Value) :=
  info_MDNodes (DebugInfo_MDNode heap fuel) d.

(** A [DebugInfo] as [new(DebugInfo)] makes it, with an empty trace. *)
Definition fresh : State :=
  {| info := {| cache := None |}; invoked := [] |}.

(** The arguments of the calls to [info.MDNode] that an object's [mdNode]
    makes, in call order. *)
Definition refs (o : Object) : list DebugDescriptor :=
  match o with
  | OBasicType d =>
      [of_file (BasicTypeDescriptor.File d); BasicTypeDescriptor.Context d]
  | OCompositeType d =>
      [of_file (CompositeTypeDescriptor.File d);
       CompositeTypeDescriptor.Context d; nil_interface]
      ++ CompositeTypeDescriptor.Members d
  | OCompileUnit d =>
      CompileUnitDescriptor.EnumTypes d
      ++ CompileUnitDescriptor.RetainedTypes d
      ++ CompileUnitDescriptor.Subprograms d
      ++ CompileUnitDescriptor.GlobalVariables d
  | ODerivedType d =>
      [of_file (DerivedTypeDescriptor.File d);
       DerivedTypeDescriptor.Context d; DerivedTypeDescriptor.Base d]
  | OSubprogram d =>
      [SubprogramDescriptor.Context d; SubprogramDescriptor.Type_ d;
       nil_interface; nil_interface; nil_interface]
  | OGlobalVariable d =>
      [GlobalVariableDescriptor.Context d;
       of_file (GlobalVariableDescriptor.File d);
       GlobalVariableDescriptor.Type_ d]
  | OLocalVariable d =>
      [LocalVariableDescriptor.Context d; LocalVariableDescriptor.File d;
       LocalVariableDescriptor.Type_ d]
  | OFile _ => []
  | OLine d => [LineDescriptor.Context d; nil_interface]
  | OContext _ => []
  | OBlock d => [of_file (BlockDescriptor.File d); BlockDescriptor.Context d]
  end.

(** ** The declare intrinsic *)

Section Declare.

(** The code-generation library, as far as the accessor uses it: module and
    builder handles, the intrinsic catalog [getDeclaration], the catalog's
    identifier [dbg_declare], and the methods [IsAFunction], [Name] and
    [CreateCall] of the Go binding. *)
Variables Module_ Builder : Type.
Variable getDeclaration : Module_ -> Z -> Value.
Variable dbg_declare : Z.
Variable IsAFunction : Value -> Value.
Variable Name : Value -> string.
Variable CreateCall : Builder -> Value -> list Value -> string -> Value.

(** [id++] on the 32-bit identifier. *)
Definition getDbgDeclare (module : Module_) : Value :=
  let id := dbg_declare in
  let id := (id + 1) mod 2 ^ 32 in
  let DeclareFn := getDeclaration module id in
  DeclareFn.

Definition InsertDeclare (b : Builder) (module : Module_)
    (storage md : Value) : result Value :=
  let nf := getDbgDeclare module in
  if IsNil (IsAFunction nf)
     || negb (String.eqb (Name nf) "llvm.dbg.declare")
  then Panic ("Wanted llvm.dbg.declare but got: " ++ Name nf)
  else Ok (CreateCall b nf [storage; md] EmptyString).

End Declare.

(** * Vocabulary of the properties *)

(** ** Strings *)

(** The byte [c] occurs in [s]. *)
Fixpoint has_byte (c : ascii) (s : string) : bool :=
  match s with
  | EmptyString => false
  | String a s' => Ascii.eqb a c || has_byte c s'
  end.

(** ** The descriptor graph *)

(** [edge heap x y]: lowering [x] asks the cache for [y]. *)
Definition edge (heap : gmap N Object) (x y : DebugDescriptor) : Prop :=
  exists o, deref heap x = Some o /\ In y (refs o).

(** The descriptors of [W] are waiting for [x]: none of them is cached, and
    lowering any of them asks the cache for another one of them or for [x].
    The descriptors whose [mdNode] is on the call stack when
    [DebugInfo.MDNode] is called for [x] are in this situation. *)
Definition pending (heap : gmap N Object) (W : list DebugDescriptor)
    (x : DebugDescriptor) (st : State) : Prop :=
  forall s, In s W ->
    is_nil s = false /\ cached st s = None
    /\ exists y, edge heap s y /\ (In y W \/ y = x).

(** Between [st] and [st'] no descriptor of [W] was cached or lowered. *)
Definition untouched (W : list DebugDescriptor) (st st' : State) : Prop :=
  forall s, In s W ->
    cached st' s = None /\ invocations s st' = invocations s st.

(** A reference [x] held by the object at address [a] is nil, or leads to a
    live object of its type at an address of smaller rank. *)
Definition ref_ok (heap : gmap N Object) (rank : N -> nat) (a : N)
    (x : DebugDescriptor) : bool :=
  match x with
  | boxed _ (Some b) =>
      match deref heap x with
      | Some _ => (rank b <? rank a)%nat
      | None => false
      end
  | _ => true
  end.

(** Every reference of every object of the heap is [ref_ok]: the descriptor
    graph has no cycle and no dangling pointer. *)
Definition acyclic (heap : gmap N Object) (rank : N -> nat) : bool :=
  forallb (fun ao => forallb (ref_ok heap rank (fst ao)) (refs (snd ao)))
          (map_to_list heap).

(** Fuel that suffices to lower [d] in an acyclic heap. *)
Definition depth (rank : N -> nat) (d : DebugDescriptor) : nat :=
  match d with
  | boxed _ (Some a) => S (rank a)
  | _ => O
  end.

(** ** Statements that are put to the test *)

(** Two lowerings of [d], starting in [st], return the same node and invoke
    the [mdNode] of [d] exactly once between them. *)
Definition lowered_twice_invoked_once (heap : gmap N Object)
    (d : DebugDescriptor) (st : State) : Prop :=
  exists (fuel1 fuel2 : nat) (v : Value) (st1 st2 : State),
    DebugInfo_MDNode heap fuel1 d st = Some (v, st1)
    /\ DebugInfo_MDNode heap fuel2 d st1 = Some (v, st2)
    /\ invocations d st2 = (invocations d st + 1)%nat.

(** The first field of [v] is the 32-bit constant [LLVMDebugVersion + tag],
    for the tag that [o] reports. *)
Definition leads_with_tag (o : Object) (v : Value) : Prop :=
  exists tag : DwarfTag,
    Tag o = Ok tag
    /\ operand 0 v = Some (ConstInt Int32Type (LLVMDebugVersion + tag) false).

(** Every node that lowering [o] returns leads with version plus tag. *)
Definition first_field_is_version_plus_tag (o : Object) : Prop :=
  forall (f : DebugDescriptor -> M Value) (st : State) (v : Value) (st' : State),
    mdNode f o st = Some (v, st') -> leads_with_tag o v.

(** The catalog lookup is made with the identifier [dbg_declare] itself,
    whatever the catalog. *)
Definition lookup_uses_dbg_declare (dbg_declare : Z) : Prop :=
  forall (Module_ : Type) (getDeclaration : Module_ -> Z -> Value)
         (module : Module_),
    getDbgDeclare Module_ getDeclaration dbg_declare module
    = getDeclaration module dbg_declare.

(** ** Example descriptors *)

(** A catalog that answers with the identifier it is asked for, so that the
    answer shows which identifier was passed. *)
Definition example_catalog (module : unit) (id : Z) : Value :=
  ConstInt Int32Type id false.

(** The basic type of the design document's example: named int, 32 bits,
    signed, declared on line 5 of the file at address 1. *)
Definition example_int : BasicTypeDescriptor.t :=
  {| BasicTypeDescriptor.Context := nil_interface;
     BasicTypeDescriptor.Name := "int";
     BasicTypeDescriptor.File := Some 1%N;
     BasicTypeDescriptor.Line := 5;
     BasicTypeDescriptor.Size := 32;
     BasicTypeDescriptor.Alignment := 32;
     BasicTypeDescriptor.Offset := 0;
     BasicTypeDescriptor.Flags := 0;
     BasicTypeDescriptor.TypeEncoding := DW_ATE_signed |}.

(** A heap with the file [main.x] at address 1 and [example_int] at
    address 2. *)
Definition example_heap : gmap N Object :=
  <[2%N := OBasicType example_int]> (<[1%N := OFile "main.x"%string]> ∅).

Definition example_file_node : Value :=
  MDNode [MDString "main.x"; MDString EmptyString].

(** The state after the file at address 1 has been lowered into a new
    cache. *)
Definition example_file_cached : State :=
  store (of_file (Some 1%N)) example_file_node
    (enter (of_file (Some 1%N)) (make_cache fresh)).

(** The state after the file and then the basic type have been lowered. *)
Definition example_int_cached : State :=
  match DebugInfo_MDNode example_heap 2
          (boxed PBasicTypeDescriptor (Some 2%N)) example_file_cached with
  | Some (_, st) => st
  | None => fresh
  end.

(** The state after [example_int] has been lowered through a new cache;
    its file was lowered and cached on the way. *)
Definition example_after_int : State :=
  match DebugInfo_MDNode example_heap 2
          (boxed PBasicTypeDescriptor (Some 2%N)) fresh with
  | Some (_, st) => st
  | None => fresh
  end.

(** The local variable of the design document's example: line 10, second
    argument. *)
Definition example_local : LocalVariableDescriptor.t :=
  {| LocalVariableDescriptor.tag := DW_TAG_arg_variable;
     LocalVariableDescriptor.Context := nil_interface;
     LocalVariableDescriptor.Name := "x";
     LocalVariableDescriptor.File := of_file (Some 1%N);
     LocalVariableDescriptor.Line := 10;
     LocalVariableDescriptor.Argument := 2;
     LocalVariableDescriptor.Type_ := boxed PBasicTypeDescriptor (Some 2%N) |}.

Definition example_line : LineDescriptor.t :=
  {| LineDescriptor.Line := 7; LineDescriptor.Column := 3;
     LineDescriptor.Context := nil_interface |}.

(** A pointer type whose base is the pointer type itself, alone in its
    heap at address 1. *)
Definition example_self : DebugDescriptor :=
  boxed PDerivedTypeDescriptor (Some 1%N).

Definition example_cyclic_heap : gmap N Object :=
  <[1%N := ODerivedType (NewPointerDerivedType example_self)]> ∅.

(** ** Vocabulary of the cache invariants *)

(** [reach heap x y]: [y] is [x] or is met when following references from
    [x]. *)
Inductive reach (heap : gmap N Object) : DebugDescriptor -> DebugDescriptor -> Prop :=
| reach_refl (x : DebugDescriptor) : reach heap x x
| reach_step (x y z : DebugDescriptor) :
    edge heap x y -> reach heap y z -> reach heap x z.

(** Outside of [W], a descriptor's [mdNode] has been invoked once if the
    descriptor is cached and never if it is not. *)
Definition lowered_once_outside (W : list DebugDescriptor) (st : State) : Prop :=
  forall d, ~ In d W ->
    invocations d st = match cached st d with Some _ => 1%nat | None => 0%nat end.

(** The trace and the cache agree: every cached descriptor has been lowered
    exactly once, and no other descriptor has been lowered at all. *)
Definition lowered_once (st : State) : Prop := lowered_once_outside [] st.

(** The node of [example_int]. *)
Definition example_int_node : Value :=
  MDNode [
    ConstInt Int32Type (Z.shiftl 12 16 + 0x24) false;
    example_file_node;
    ValueNil;
    MDString "int";
    ConstInt Int32Type 5 false;
    ConstInt Int64Type 32 false;
    ConstInt Int64Type 32 false;
    ConstInt Int64Type 0 false;
    ConstInt Int32Type 0 false;
    ConstInt Int32Type 5 false].

(** [example_heap] with a second file at address 3 that has the same path
    as the file at address 1. *)
Definition example_twin_heap : gmap N Object :=
  <[3%N := OFile "main.x"%string]> example_heap.

(** ** Ranges of the Go field types *)

Definition is_uint64b (x : Z) : bool := (0 <=? x) && (x <? 2 ^ 64).
Definition is_int32b (x : Z) : bool := (- 2 ^ 31 <=? x) && (x <? 2 ^ 31).

(** Every integer field of the object is within the range of its Go type
    ([uint32] for tags, lines, columns, flags, encodings and identifiers,
    [uint64] for sizes, [int32] for the runtime version). *)
Definition well_typed (o : Object) : bool :=
  match o with
  | OBasicType d =>
      is_uint32b (BasicTypeDescriptor.Line d)
      && is_uint64b (BasicTypeDescriptor.Size d)
      && is_uint64b (BasicTypeDescriptor.Alignment d)
      && is_uint64b (BasicTypeDescriptor.Offset d)
      && is_uint32b (BasicTypeDescriptor.Flags d)
      && is_uint32b (BasicTypeDescriptor.TypeEncoding d)
  | OCompositeType d =>
      is_uint32b (CompositeTypeDescriptor.tag d)
      && is_uint32b (CompositeTypeDescriptor.Line d)
      && is_uint64b (CompositeTypeDescriptor.Size d)
      && is_uint64b (CompositeTypeDescriptor.Alignment d)
      && is_uint64b (CompositeTypeDescriptor.Offset d)
      && is_uint32b (CompositeTypeDescriptor.Flags d)
  | OCompileUnit d =>
      is_uint32b (CompileUnitDescriptor.Language d)
      && is_int32b (CompileUnitDescriptor.Runtime d)
  | ODerivedType d =>
      is_uint32b (DerivedTypeDescriptor.tag d)
      && is_uint32b (DerivedTypeDescriptor.Line d)
      && is_uint64b (DerivedTypeDescriptor.Size d)
      && is_uint64b (DerivedTypeDescriptor.Alignment d)
      && is_uint64b (DerivedTypeDescriptor.Offset d)
      && is_uint32b (DerivedTypeDescriptor.Flags d)
  | OSubprogram d =>
      is_uint32b (SubprogramDescriptor.Line d)
      && is_uint32b (SubprogramDescriptor.ScopeLine d)
  | OGlobalVariable d => is_uint32b (GlobalVariableDescriptor.Line d)
  | OLocalVariable d =>
      is_uint32b (LocalVariableDescriptor.tag d)
      && is_uint32b (LocalVariableDescriptor.Line d)
      && is_uint32b (LocalVariableDescriptor.Argument d)
  | OFile _ => true
  | OLine d =>
      is_uint32b (LineDescriptor.Line d) && is_uint32b (LineDescriptor.Column d)
  | OContext _ => true
  | OBlock d =>
      is_uint32b (BlockDescriptor.Line d)
      && is_uint32b (BlockDescriptor.Column d)
      && is_uint32b (BlockDescriptor.Id d)
  end.

(** ** More example descriptors *)

(** A structure type with two members, a nil interface and a nil pointer,
    made by the constructor. *)
Definition example_struct : CompositeTypeDescriptor.t :=
  NewStructCompositeType [nil_interface; boxed PLineDescriptor None].

(** The subroutine type [func(int) int] over [example_int]. *)
Definition example_func : CompositeTypeDescriptor.t :=
  NewSubroutineCompositeType
    (boxed PBasicTypeDescriptor (Some 2%N))
    [boxed PBasicTypeDescriptor (Some 2%N)].

(** A compilation unit with a negative runtime version that retains
    [example_int]. *)
Definition example_unit : CompileUnitDescriptor.t :=
  {| CompileUnitDescriptor.Path := "/src/main.x"%string;
     CompileUnitDescriptor.Language := DW_LANG_Go;
     CompileUnitDescriptor.Producer := "llgo";
     CompileUnitDescriptor.Optimized := true;
     CompileUnitDescriptor.CompilerFlags := EmptyString;
     CompileUnitDescriptor.Runtime := -1;
     CompileUnitDescriptor.EnumTypes := [];
     CompileUnitDescriptor.RetainedTypes :=
       [boxed PBasicTypeDescriptor (Some 2%N)];
     CompileUnitDescriptor.Subprograms := [];
     CompileUnitDescriptor.GlobalVariables := [nil_interface] |}.

Definition example_subprogram : SubprogramDescriptor.t :=
  {| SubprogramDescriptor.Context := nil_interface;
     SubprogramDescriptor.Name := "main";
     SubprogramDescriptor.DisplayName := "main.main";
     SubprogramDescriptor.Type_ := boxed PBasicTypeDescriptor (Some 2%N);
     SubprogramDescriptor.Line := 3;
     SubprogramDescriptor.Function := Handle 7;
     SubprogramDescriptor.Path := "/src/main.x"%string;
     SubprogramDescriptor.ScopeLine := 4 |}.

Definition example_global : GlobalVariableDescriptor.t :=
  {| GlobalVariableDescriptor.Context := nil_interface;
     GlobalVariableDescriptor.Name := "g";
     GlobalVariableDescriptor.DisplayName := "main.g";
     GlobalVariableDescriptor.File := Some 1%N;
     GlobalVariableDescriptor.Line := 9;
     GlobalVariableDescriptor.Type_ := boxed PBasicTypeDescriptor (Some 2%N);
     GlobalVariableDescriptor.Local := false;
     GlobalVariableDescriptor.External := false;
     GlobalVariableDescriptor.Value_ := Handle 8 |}.

Definition example_block : BlockDescriptor.t :=
  {| BlockDescriptor.File := Some 1%N;
     BlockDescriptor.Context := nil_interface;
     BlockDescriptor.Line := 11;
     BlockDescriptor.Column := 2;
     BlockDescriptor.Id := 1 |}.

(** A heap with a context for the file [/src/main.x] at address 4. *)
Definition example_context_heap : gmap N Object :=
  <[4%N := OContext {| ContextDescriptor.FileDescriptor_ := "/src/main.x"%string |}]>
    example_heap.

(** A catalog whose identifiers are consistent with the header: 30 is the
    declare intrinsic and 31 the intrinsic after it.  The handle of an
    intrinsic records its identifier. *)
Definition example_Name (v : Value) : string :=
  match v with
  | ConstInt _ 30 _ => "llvm.dbg.declare"
  | ConstInt _ 31 _ => "llvm.dbg.value"
  | _ => EmptyString
  end.

(** Every handle of [example_catalog] is a function. *)
Definition example_IsAFunction (v : Value) : Value := v.

(** The call instruction, recorded as the node of callee and arguments. *)
Definition example_CreateCall (b : unit) (fn : Value) (args : list Value)
    (name : string) : Value :=
  MDNode (fn :: args).

(** A local variable that differs from [d] in line and argument only. *)
Definition with_line_and_argument (line argument : Z)
    (d : LocalVariableDescriptor.t) : LocalVariableDescriptor.t :=
  {| LocalVariableDescriptor.tag := LocalVariableDescriptor.tag d;
     LocalVariableDescriptor.Context := LocalVariableDescriptor.Context d;
     LocalVariableDescriptor.Name := LocalVariableDescriptor.Name d;
     LocalVariableDescriptor.File := LocalVariableDescriptor.File d;
     LocalVariableDescriptor.Line := line;
     LocalVariableDescriptor.Argument := argument;
     LocalVariableDescriptor.Type_ := LocalVariableDescriptor.Type_ d |}.

(** * Properties *)

(** ** Machine integers in range *)

Lemma uint64_small (x : Z) : is_uint32 x -> uint64 x = x.
Proof. unfold is_uint32, uint64. intros H. apply Z.mod_small. lia. Qed.

Lemma add64_version (tag : Z) :
  is_uint32 tag -> add64 LLVMDebugVersion (uint64 tag) = LLVMDebugVersion + tag.
Proof.
  intros H. rewrite (uint64_small _ H). unfold add64, is_uint32 in *.
  apply Z.mod_small. change LLVMDebugVersion with 786432. lia.
Qed.

Lemma add64_version_r (tag : Z) :
  is_uint32 tag -> add64 (uint64 tag) LLVMDebugVersion = LLVMDebugVersion + tag.
Proof.
  intros H. rewrite <- (add64_version _ H). unfold add64. f_equal. lia.
Qed.

Lemma shl64_argument (a : Z) :
  is_uint32 a -> shl64 (uint64 a) 24 = Z.shiftl a 24.
Proof.
  intros H. rewrite (uint64_small _ H). unfold shl64, is_uint32 in *.
  rewrite Z.shiftl_mul_pow2 by lia. apply Z.mod_small. lia.
Qed.

Lemma is_uint32b_true (x : Z) : is_uint32b x = true -> is_uint32 x.
Proof. unfold is_uint32b, is_uint32. lia. Qed.

(** ** Strings and [path.Split] *)

Lemma LastIndexByte_absent (c : ascii) (s : string) :
  has_byte c s = false -> path.LastIndexByte s c = None.
Proof.
  induction s as [|a s IH]; simpl; [reflexivity|].
  intros H. apply orb_false_iff in H as [Ha Hs].
  rewrite (IH Hs), Ha. reflexivity.
Qed.

Lemma LastIndexByte_last (c : ascii) (dir file : string) :
  has_byte c file = false ->
  path.LastIndexByte (dir ++ String c file) c = Some (String.length dir).
Proof.
  intros Hf. induction dir as [|a dir IH]; simpl.
  - rewrite (LastIndexByte_absent _ _ Hf), Ascii.eqb_refl. reflexivity.
  - rewrite IH. reflexivity.
Qed.

Lemma substring_all (s : string) : substring 0 (String.length s) s = s.
Proof. induction s as [|a s IH]; simpl; [reflexivity | now rewrite IH]. Qed.

Lemma substring_prefix (a b : string) :
  substring 0 (String.length a) (a ++ b) = a.
Proof.
  induction a as [|x a IH]; simpl.
  - destruct b; reflexivity.
  - now rewrite IH.
Qed.

Lemma substring_suffix (a b : string) (n : nat) :
  substring (String.length a) n (a ++ b) = substring 0 n b.
Proof. induction a as [|x a IH]; simpl; [reflexivity | exact IH]. Qed.

Lemma length_append (a b : string) :
  String.length (a ++ b) = (String.length a + String.length b)%nat.
Proof. induction a as [|x a IH]; simpl; [reflexivity | now rewrite IH]. Qed.

Lemma get_after (a : string) (c : ascii) (b : string) :
  String.get (String.length a) (a ++ String c b) = Some c.
Proof. induction a as [|x a IH]; simpl; [reflexivity | exact IH]. Qed.

Lemma append_cons (x : ascii) (a b : string) :
  (String x a ++ b = String x (a ++ b))%string.
Proof. reflexivity. Qed.

Lemma append_sep (dir : string) (c : ascii) (file : string) :
  (dir ++ String c file = (dir ++ String c EmptyString) ++ file)%string.
Proof.
  induction dir as [|x dir IH]; [reflexivity|].
  rewrite !append_cons, IH. reflexivity.
Qed.

Lemma Split_at_last_slash (dir file : string) :
  has_byte "/" file = false ->
  path.Split (dir ++ String "/" file)
  = ((dir ++ String "/" EmptyString)%string, file).
Proof.
  intros Hf. unfold path.Split, path.LastIndex, path.slice, path.len.
  rewrite (LastIndexByte_last _ _ _ Hf).
  replace (Z.to_nat 0) with 0%nat by reflexivity.
  replace (Z.to_nat (Z.of_nat (String.length dir) + 1 - 0))
    with (String.length (dir ++ String "/" EmptyString)).
  2: { rewrite length_append. simpl. lia. }
  replace (Z.to_nat (Z.of_nat (String.length dir) + 1))
    with (String.length (dir ++ String "/" EmptyString)).
  2: { rewrite length_append. simpl. lia. }
  replace (Z.to_nat (Z.of_nat (String.length (dir ++ String "/" file))
                     - (Z.of_nat (String.length dir) + 1)))
    with (String.length file).
  2: { rewrite length_append. simpl. lia. }
  rewrite (append_sep dir "/" file).
  rewrite substring_prefix, substring_suffix, substring_all.
  reflexivity.
Qed.

Lemma Split_without_slash (p : string) :
  has_byte "/" p = false -> path.Split p = (EmptyString, p).
Proof.
  intros Hp. unfold path.Split, path.LastIndex, path.slice, path.len.
  rewrite (LastIndexByte_absent _ _ Hp).
  change (-1 + 1) with 0. change (Z.to_nat (0 - 0)) with 0%nat.
  change (Z.to_nat 0) with 0%nat.
  rewrite Z.sub_0_r, Nat2Z.id, substring_all.
  destruct p; reflexivity.
Qed.

(** Every path is without separator or splits at its last separator. *)
Lemma path_cases (p : string) :
  has_byte "/" p = false
  \/ exists dir file : string,
       p = (dir ++ String "/" file)%string /\ has_byte "/" file = false.
Proof.
  induction p as [|a p IH]; [left; reflexivity|].
  destruct IH as [Hp|[dir [file [-> Hf]]]].
  - simpl. destruct (Ascii.eqb a "/") eqn:Ha.
    + right. apply Ascii.eqb_eq in Ha. subst a.
      exists EmptyString, p. split; [reflexivity | exact Hp].
    + left. exact Hp.
  - right. exists (String a dir), file. split; [reflexivity | exact Hf].
Qed.

(** ** Files *)

(** C6.  Lowering a file splits its path at the last separator: for a path
    [dir/file] whose [file] part has no separator the node is the pair
    (file name, directory) with the separator between them dropped, and a path
    without any separator lowers to itself with an empty directory. *)
Theorem FileDescriptor_mdNode_split (dir file : string) :
  has_byte "/" file = false ->
  FileDescriptor.mdNode (dir ++ String "/" file)%string
  = MDNode [MDString file; MDString dir]
  /\ FileDescriptor.mdNode file = MDNode [MDString file; MDString EmptyString].
Proof.
  intros Hf. split.
  - unfold FileDescriptor.mdNode.
    rewrite (Split_at_last_slash _ _ Hf).
    unfold path.len, path.slice. rewrite length_append.
    change (String.length (String "/" EmptyString)) with 1%nat.
    replace (0 <? Z.of_nat (String.length dir + 1)) with true
      by (symmetry; apply Z.ltb_lt; lia).
    replace (Z.to_nat (Z.of_nat (String.length dir + 1) - 1))
      with (String.length dir) by lia.
    rewrite get_after, Ascii.eqb_refl.
    replace (Z.to_nat (Z.of_nat (String.length dir + 1) - 1 - 0))
      with (String.length dir) by lia.
    change (Z.to_nat 0) with 0%nat.
    rewrite substring_prefix. reflexivity.
  - unfold FileDescriptor.mdNode.
    rewrite (Split_without_slash _ Hf). reflexivity.
Qed.

Lemma FileDescriptor_mdNode_split_witness :
  FileDescriptor.mdNode "/a/b/c.x"%string
  = MDNode [MDString "c.x"; MDString "/a/b"]
  /\ FileDescriptor.mdNode "c.x"%string = MDNode [MDString "c.x"; MDString EmptyString].
Proof.
  apply (FileDescriptor_mdNode_split "/a/b"%string "c.x"%string).
  reflexivity.
Defined.

(** ** Tags *)

(** C7.  The tag accessor of a line descriptor panics, whatever the
    descriptor holds, both when called directly and through the interface; it
    returns no tag. *)
Theorem LineDescriptor_Tag_panics (d : LineDescriptor.t) :
  LineDescriptor.Tag d = Panic "LineDescriptor.Tag should never be called"
  /\ Tag (OLine d) = Panic "LineDescriptor.Tag should never be called"
  /\ forall tag : DwarfTag, Tag (OLine d) <> Ok tag.
Proof. repeat split. intros tag H. discriminate H. Qed.

(** ** The lowering cache: absent descriptors *)

(** C2.  Lowering the nil interface, or a nil pointer of any descriptor type
    stored in an interface, returns the empty node [Value{nil}] with any
    amount of fuel and leaves the state, hence the cache, as it was. *)
Theorem MDNode_nil (heap : gmap N Object) (fuel : nat) (st : State) :
  DebugInfo_MDNode heap fuel nil_interface st = Some (ValueNil, st)
  /\ forall ty : GoType,
       DebugInfo_MDNode heap fuel (boxed ty None) st = Some (ValueNil, st).
Proof. split; [|intros ty]; destruct fuel; reflexivity. Qed.

(** ** Composite type constructors *)

Lemma copy_over_zeroes (Params : list DebugDescriptor) :
  copy (make_descriptors (length Params)) Params = Params.
Proof.
  induction Params as [|x Params IH]; [reflexivity|].
  simpl. f_equal. exact IH.
Qed.

(** C10.  A subroutine type has the subroutine tag, and its members are the
    result followed by the parameters in their order: one more than there are
    parameters. *)
Theorem NewSubroutineCompositeType_members
    (Result : DebugDescriptor) (Params : list DebugDescriptor) :
  let d := NewSubroutineCompositeType Result Params in
  CompositeTypeDescriptor.Tag d = DW_TAG_subroutine_type
  /\ CompositeTypeDescriptor.Members d = Result :: Params
  /\ length (CompositeTypeDescriptor.Members d) = (length Params + 1)%nat
  /\ CompositeTypeDescriptor.Members d !! 0%nat = Some Result
  /\ forall i : nat,
       CompositeTypeDescriptor.Members d !! S i = Params !! i.
Proof.
  assert (Hm : CompositeTypeDescriptor.Members
                 (NewSubroutineCompositeType Result Params)
               = Result :: Params).
  { unfold NewSubroutineCompositeType. simpl.
    rewrite Nat.add_1_r. simpl. rewrite drop_0. f_equal.
    apply copy_over_zeroes. }
  intros d. subst d. rewrite Hm.
  repeat split. simpl. lia.
Qed.

(** ** The declare intrinsic *)

(** C8.  [InsertDeclare] panics, with a message that ends in the name the
    handle reports, exactly when the handle that the catalog lookup returned
    is not a function or reports another name than [llvm.dbg.declare];
    otherwise it returns the call of that handle on the storage value and the
    metadata node, in this order. *)
Theorem InsertDeclare_checks_handle
    (Module_ Builder : Type) (getDeclaration : Module_ -> Z -> Value)
    (dbg_declare : Z) (IsAFunction : Value -> Value) (Name : Value -> string)
    (CreateCall : Builder -> Value -> list Value -> string -> Value)
    (b : Builder) (module : Module_) (storage md : Value) :
  let nf := getDbgDeclare Module_ getDeclaration dbg_declare module in
  let r := InsertDeclare Module_ Builder getDeclaration dbg_declare
             IsAFunction Name CreateCall b module storage md in
  (r = Panic ("Wanted llvm.dbg.declare but got: " ++ Name nf)
   <-> IsNil (IsAFunction nf) = true
       \/ Name nf <> "llvm.dbg.declare"%string)
  /\ (r = Ok (CreateCall b nf [storage; md] EmptyString)
      <-> ~ (IsNil (IsAFunction nf) = true
             \/ Name nf <> "llvm.dbg.declare"%string))
  /\ (r = Panic ("Wanted llvm.dbg.declare but got: " ++ Name nf)
      \/ r = Ok (CreateCall b nf [storage; md] EmptyString)).
Proof.
  intros nf r. subst r. unfold InsertDeclare. fold nf.
  destruct (IsNil (IsAFunction nf)) eqn:Hfun;
    destruct (String.eqb_spec (Name nf) "llvm.dbg.declare") as [Hn|Hn];
    simpl; intuition (try discriminate; try congruence).
Qed.

(** In general the accessor asks the catalog for the identifier that
    follows [dbg_declare] and returns the catalog's answer unchanged. *)
Lemma getDbgDeclare_requests_successor
    (Module_ : Type) (getDeclaration : Module_ -> Z -> Value)
    (dbg_declare : Z) (module : Module_) :
  0 <= dbg_declare < 2 ^ 32 - 1 ->
  getDbgDeclare Module_ getDeclaration dbg_declare module
  = getDeclaration module (dbg_declare + 1).
Proof.
  intros H. unfold getDbgDeclare. f_equal. apply Z.mod_small. lia.
Qed.

(** No catalog identifier is looked up as itself by every catalog. *)
Lemma getDbgDeclare_not_dbg_declare : ~ lookup_uses_dbg_declare 30.
Proof.
  intros H. specialize (H unit example_catalog tt). discriminate H.
Qed.

(** C9.  The accessor does not pass [dbg_declare] to the catalog lookup but
    the identifier after it: with [dbg_declare = 30] and a catalog that
    answers with the identifier it is asked for, the lookup is made with 31,
    and the answer is not the catalog's answer for 30. *)
Theorem getDbgDeclare_passes_next_identifier :
  getDbgDeclare unit example_catalog 30 tt = example_catalog tt 31
  /\ getDbgDeclare unit example_catalog 30 tt <> example_catalog tt 30.
Proof.
  rewrite (getDbgDeclare_requests_successor unit example_catalog 30 tt) by lia.
  split; [reflexivity | discriminate].
Qed.

(** ** Field layouts *)

(** C3.  A basic type lowers to a node of exactly ten fields: version plus
    tag, file, context, name, line, size, alignment, offset, flags and type
    encoding, where file and context are what the cache returns for the two
    references, asked in this order. *)
Theorem BasicTypeDescriptor_mdNode_fields
    (f : DebugDescriptor -> M Value) (d : BasicTypeDescriptor.t)
    (st st1 st2 : State) (file context : Value) :
  is_uint32 (BasicTypeDescriptor.Line d) ->
  is_uint32 (BasicTypeDescriptor.Flags d) ->
  is_uint32 (BasicTypeDescriptor.TypeEncoding d) ->
  f (of_file (BasicTypeDescriptor.File d)) st = Some (file, st1) ->
  f (BasicTypeDescriptor.Context d) st1 = Some (context, st2) ->
  exists v : Value,
    BasicTypeDescriptor.mdNode f d st = Some (v, st2)
    /\ length (operands v) = 10%nat
    /\ v = MDNode [
             ConstInt Int32Type (Z.shiftl 12 16 + 0x24) false;
             file;
             context;
             MDString (BasicTypeDescriptor.Name d);
             ConstInt Int32Type (BasicTypeDescriptor.Line d) false;
             ConstInt Int64Type (BasicTypeDescriptor.Size d) false;
             ConstInt Int64Type (BasicTypeDescriptor.Alignment d) false;
             ConstInt Int64Type (BasicTypeDescriptor.Offset d) false;
             ConstInt Int32Type (BasicTypeDescriptor.Flags d) false;
             ConstInt Int32Type (BasicTypeDescriptor.TypeEncoding d) false].
Proof.
  intros Hline Hflags Henc Hfile Hctx.
  unfold BasicTypeDescriptor.mdNode, bind, ret.
  rewrite Hfile, Hctx.
  rewrite (uint64_small _ Hline), (uint64_small _ Hflags),
    (uint64_small _ Henc).
  eexists. repeat split.
Qed.

Lemma BasicTypeDescriptor_mdNode_fields_witness :
  exists v : Value,
    BasicTypeDescriptor.mdNode (DebugInfo_MDNode example_heap 1) example_int fresh
    = Some (v, example_file_cached)
    /\ length (operands v) = 10%nat
    /\ v = MDNode [
             ConstInt Int32Type (Z.shiftl 12 16 + 0x24) false;
             example_file_node;
             ValueNil;
             MDString "int";
             ConstInt Int32Type 5 false;
             ConstInt Int64Type 32 false;
             ConstInt Int64Type 32 false;
             ConstInt Int64Type 0 false;
             ConstInt Int32Type 0 false;
             ConstInt Int32Type 5 false].
Proof.
  apply (BasicTypeDescriptor_mdNode_fields
           (DebugInfo_MDNode example_heap 1) example_int
           fresh example_file_cached example_file_cached
           example_file_node ValueNil).
  - apply is_uint32b_true; reflexivity.
  - apply is_uint32b_true; reflexivity.
  - apply is_uint32b_true; reflexivity.
  - vm_compute. reflexivity.
  - vm_compute. reflexivity.
Defined.

(** C5.  The fifth field of a lowered local variable is the 32-bit constant
    built from [Line | Argument << 24]; the node is produced as soon as the
    cache has answered for context, file and type, in this order. *)
Theorem LocalVariableDescriptor_mdNode_line
    (f : DebugDescriptor -> M Value) (d : LocalVariableDescriptor.t)
    (st st1 st2 st3 : State) (context file type : Value) :
  is_uint32 (LocalVariableDescriptor.Line d) ->
  is_uint32 (LocalVariableDescriptor.Argument d) ->
  f (LocalVariableDescriptor.Context d) st = Some (context, st1) ->
  f (LocalVariableDescriptor.File d) st1 = Some (file, st2) ->
  f (LocalVariableDescriptor.Type_ d) st2 = Some (type, st3) ->
  exists v : Value,
    LocalVariableDescriptor.mdNode f d st = Some (v, st3)
    /\ length (operands v) = 8%nat
    /\ operand 4 v
       = Some (ConstInt Int32Type
                 (Z.lor (LocalVariableDescriptor.Line d)
                        (Z.shiftl (LocalVariableDescriptor.Argument d) 24))
                 false).
Proof.
  intros Hline Harg Hctx Hfile Htype.
  unfold LocalVariableDescriptor.mdNode, bind, ret.
  rewrite Hctx, Hfile, Htype.
  eexists. split; [reflexivity|]. split; [reflexivity|].
  unfold operand, operands, or64. simpl.
  rewrite (uint64_small _ Hline), (shl64_argument _ Harg). reflexivity.
Qed.

Lemma LocalVariableDescriptor_mdNode_line_witness :
  exists v : Value,
    LocalVariableDescriptor.mdNode (DebugInfo_MDNode example_heap 2)
      example_local fresh
    = Some (v, example_int_cached)
    /\ length (operands v) = 8%nat
    /\ operand 4 v
       = Some (ConstInt Int32Type (Z.lor 10 (Z.shiftl 2 24)) false).
Proof.
  apply (LocalVariableDescriptor_mdNode_line
           (DebugInfo_MDNode example_heap 2) example_local
           fresh fresh example_file_cached example_int_cached
           ValueNil example_file_node
           (MDNode [
              ConstInt Int32Type (Z.shiftl 12 16 + 0x24) false;
              example_file_node;
              ValueNil;
              MDString "int";
              ConstInt Int32Type 5 false;
              ConstInt Int64Type 32 false;
              ConstInt Int64Type 32 false;
              ConstInt Int64Type 0 false;
              ConstInt Int32Type 0 false;
              ConstInt Int32Type 5 false])).
  - apply is_uint32b_true; reflexivity.
  - apply is_uint32b_true; reflexivity.
  - vm_compute. reflexivity.
  - vm_compute. reflexivity.
  - vm_compute. reflexivity.
Defined.

(** ** The calls a lowering makes *)

Lemma info_MDNodes_loop (f : DebugDescriptor -> M Value)
    (l : list DebugDescriptor) (st : State) :
  info_MDNodes f l st = MDNodes_loop f l st.
Proof. destruct l; reflexivity. Qed.

Lemma MDNodes_loop_app (f : DebugDescriptor -> M Value)
    (l1 l2 : list DebugDescriptor) (st : State) :
  MDNodes_loop f (l1 ++ l2) st
  = match MDNodes_loop f l1 st with
    | Some (v1, st1) =>
        match MDNodes_loop f l2 st1 with
        | Some (v2, st2) => Some (v1 ++ v2, st2)
        | None => None
        end
    | None => None
    end.
Proof.
  revert st. induction l1 as [|x l1 IH]; intros st.
  - simpl. unfold ret. destruct (MDNodes_loop f l2 st) as [[v2 st2]|]; reflexivity.
  - change ((x :: l1) ++ l2) with (x :: (l1 ++ l2)).
    simpl. unfold bind, ret.
    destruct (f x st) as [[v st1]|]; [|reflexivity].
    rewrite IH.
    destruct (MDNodes_loop f l1 st1) as [[v1 st2]|]; [|reflexivity].
    destruct (MDNodes_loop f l2 st2) as [[v2 st3]|]; reflexivity.
Qed.

(** Destructs, one after the other, the calls to [f] and the loops over [f]
    that the goal is stuck on. *)
Ltac run_calls f :=
  repeat
    (match goal with
     | |- context [info_MDNodes f ?l ?s] => rewrite (info_MDNodes_loop f l s)
     | |- context [MDNodes_loop f (?l1 ++ ?l2) ?s] =>
         rewrite (MDNodes_loop_app f l1 l2 s)
     | |- context [f ?x ?s] => destruct (f x s) as [[? ?]|]
     | |- context [MDNodes_loop f ?l ?s] =>
         destruct (MDNodes_loop f l s) as [[? ?]|]
     end;
     cbn beta iota).

(** An object's [mdNode] performs exactly the calls listed by [refs], in
    that order, and nothing else to the state: it returns when all of them
    return, in the state the last one leaves. *)
Lemma mdNode_normal (f : DebugDescriptor -> M Value) (o : Object) (st : State) :
  match MDNodes_loop f (refs o) st with
  | Some (_, st') => exists v, mdNode f o st = Some (v, st')
  | None => mdNode f o st = None
  end.
Proof.
  destruct o as [d|d|d|d|d|d|d|d|d|d|d]; cbn [refs mdNode];
    unfold BasicTypeDescriptor.mdNode, CompositeTypeDescriptor.mdNode,
      CompileUnitDescriptor.mdNode, DerivedTypeDescriptor.mdNode,
      SubprogramDescriptor.mdNode, GlobalVariableDescriptor.mdNode,
      LocalVariableDescriptor.mdNode, LineDescriptor.mdNode,
      ContextDescriptor.mdNode, BlockDescriptor.mdNode;
    rewrite ?MDNodes_loop_app; cbn [MDNodes_loop];
    unfold bind, ret; cbn beta iota;
    run_calls f; eauto.
Qed.

(** C4 as stated fails for two variants.  A file's node leads with the file
    name, and a line's node with the line number (a line has no tag to
    report). *)
Lemma File_and_Line_lead_without_tag :
  ~ first_field_is_version_plus_tag (OFile "c.x"%string)
  /\ ~ first_field_is_version_plus_tag (OLine example_line).
Proof.
  split; intros H;
    specialize (H (fun _ => ret ValueNil) fresh _ _ eq_refl);
    destruct H as [tag [Ht Hop]].
  - vm_compute in Hop. discriminate Hop.
  - discriminate Ht.
Qed.

(** C4, amended.  For every variant other than File and Line the first field
    of the lowered node is the 32-bit constant [LLVMDebugVersion + tag]; a
    file's node leads with the file name and a line's node with the line
    number.  The node is produced as soon as the cache has answered for the
    references of the descriptor. *)
Theorem mdNode_first_field
    (f : DebugDescriptor -> M Value) (o : Object)
    (st : State) (vs : list Value) (st' : State) :
  (forall tag : DwarfTag, Tag o = Ok tag -> is_uint32 tag) ->
  MDNodes_loop f (refs o) st = Some (vs, st') ->
  exists v : Value,
    mdNode f o st = Some (v, st')
    /\ match o with
       | OFile d => operand 0 v = Some (MDString (snd (path.Split d)))
       | OLine d =>
           operand 0 v
           = Some (ConstInt Int32Type (uint64 (LineDescriptor.Line d)) false)
       | _ => leads_with_tag o v
       end.
Proof.
  intros Htag Hloop.
  pose proof (mdNode_normal f o st) as Hn. rewrite Hloop in Hn.
  destruct Hn as [v Hv]. exists v. split; [exact Hv|].
  clear Hloop. revert Hv Htag.
  destruct o as [d|d|d|d|d|d|d|d|d|d|d]; cbn [mdNode Tag];
    unfold BasicTypeDescriptor.mdNode, CompositeTypeDescriptor.mdNode,
      CompileUnitDescriptor.mdNode, DerivedTypeDescriptor.mdNode,
      SubprogramDescriptor.mdNode, GlobalVariableDescriptor.mdNode,
      LocalVariableDescriptor.mdNode, LineDescriptor.mdNode,
      ContextDescriptor.mdNode, BlockDescriptor.mdNode;
    unfold bind, ret; cbn beta iota;
    run_calls f; intros Hv Htag; try discriminate Hv;
    injection Hv as <- <-;
    try (eexists; split; [reflexivity|];
         unfold operand; cbn [operands];
         rewrite ?add64_version, ?add64_version_r
           by (apply Htag; reflexivity);
         reflexivity).
  - unfold FileDescriptor.mdNode. destruct (path.Split d). reflexivity.
  - reflexivity.
Qed.

Lemma mdNode_first_field_witness :
  exists v : Value,
    mdNode (DebugInfo_MDNode example_heap 1) (OBasicType example_int) fresh
    = Some (v, example_file_cached)
    /\ leads_with_tag (OBasicType example_int) v.
Proof.
  apply (mdNode_first_field
           (DebugInfo_MDNode example_heap 1) (OBasicType example_int)
           fresh [example_file_node; ValueNil] example_file_cached).
  - intros tag Htag. injection Htag as <-.
    apply is_uint32b_true; reflexivity.
  - vm_compute. reflexivity.
Defined.

(** ** The lowering cache: state bookkeeping *)

Lemma cached_make_cache (st : State) (d : DebugDescriptor) :
  cached (make_cache st) d = cached st d.
Proof.
  unfold cached, make_cache. destruct (cache (info st)) eqn:E; simpl.
  - rewrite E. reflexivity.
  - apply lookup_empty.
Qed.

Lemma invocations_make_cache (st : State) (d : DebugDescriptor) :
  invocations d (make_cache st) = invocations d st.
Proof. unfold invocations, make_cache. destruct (cache (info st)); reflexivity. Qed.

Lemma make_cache_hit (st : State) (d : DebugDescriptor) (v : Value) :
  cached st d = Some v -> make_cache st = st.
Proof.
  unfold cached, make_cache. destruct (cache (info st)); [reflexivity|discriminate].
Qed.

Lemma cached_enter (x : DebugDescriptor) (st : State) (d : DebugDescriptor) :
  cached (enter x st) d = cached st d.
Proof. reflexivity. Qed.

Lemma invocations_enter_same (d : DebugDescriptor) (st : State) :
  invocations d (enter d st) = S (invocations d st).
Proof.
  unfold invocations, enter. simpl.
  rewrite count_occ_app. simpl.
  destruct (DebugDescriptor_eq_dec d d) as [_|Hne]; [lia | contradiction].
Qed.

Lemma invocations_enter_other (x d : DebugDescriptor) (st : State) :
  x <> d -> invocations d (enter x st) = invocations d st.
Proof.
  intros Hne. unfold invocations, enter. simpl.
  rewrite count_occ_app. simpl.
  destruct (DebugDescriptor_eq_dec x d) as [He|_]; [contradiction | lia].
Qed.

Lemma cached_store_same (d : DebugDescriptor) (v : Value) (st : State) :
  cached (store d v st) d = Some v.
Proof. unfold cached, store. simpl. apply lookup_insert_eq. Qed.

Lemma cached_store_other (x d : DebugDescriptor) (v : Value) (st : State) :
  x <> d -> cached (store x v st) d = cached st d.
Proof.
  intros Hne. unfold cached, store. simpl.
  rewrite lookup_insert_ne by exact Hne.
  destruct (cache (info st)); [reflexivity | apply lookup_empty].
Qed.

Lemma invocations_store (x : DebugDescriptor) (v : Value) (st : State)
    (d : DebugDescriptor) :
  invocations d (store x v st) = invocations d st.
Proof. reflexivity. Qed.

(** One unfolding of [DebugInfo_MDNode], for every amount of fuel. *)
Lemma DebugInfo_MDNode_unfold (heap : gmap N Object) (fuel : nat)
    (d : DebugDescriptor) (st : State) :
  DebugInfo_MDNode heap fuel d st
  = if is_nil d then Some (ValueNil, st)
    else match cached (make_cache st) d with
         | Some value => Some (value, make_cache st)
         | None =>
             match fuel with
             | O => None
             | S fuel' =>
                 match deref heap d with
                 | None => None
                 | Some o =>
                     match mdNode (DebugInfo_MDNode heap fuel') o
                             (enter d (make_cache st)) with
                     | Some (value, st') => Some (value, store d value st')
                     | None => None
                     end
                 end
             end
         end.
Proof. destruct fuel; reflexivity. Qed.

(** A cached descriptor is answered from the cache, with any fuel and
    without any change of state. *)
Lemma MDNode_hit (heap : gmap N Object) (fuel : nat) (d : DebugDescriptor)
    (st : State) (v : Value) :
  is_nil d = false -> cached st d = Some v ->
  DebugInfo_MDNode heap fuel d st = Some (v, st).
Proof.
  intros Hnil Hc. rewrite DebugInfo_MDNode_unfold, Hnil.
  rewrite cached_make_cache, Hc, (make_cache_hit _ _ _ Hc). reflexivity.
Qed.

(** ** Invariants of the loop over references *)

Lemma MDNodes_loop_invariant (f : DebugDescriptor -> M Value)
    (I : State -> Prop) (l : list DebugDescriptor) :
  (forall x st v st', In x l -> I st -> f x st = Some (v, st') -> I st') ->
  forall st vs st', I st -> MDNodes_loop f l st = Some (vs, st') -> I st'.
Proof.
  induction l as [|x l IH]; intros Hstep st vs st' HI Hrun.
  - injection Hrun as <- <-. exact HI.
  - simpl in Hrun. unfold bind, ret in Hrun.
    destruct (f x st) as [[v st1]|] eqn:Hx; [|discriminate].
    destruct (MDNodes_loop f l st1) as [[vs' st2]|] eqn:Hl; [|discriminate].
    injection Hrun as <- <-.
    apply (IH (fun y s w s' Hy => Hstep y s w s' (or_intror Hy)) st1 vs').
    + apply (Hstep x st v st1); [left; reflexivity | exact HI | exact Hx].
    + exact Hl.
Qed.

Lemma MDNodes_loop_stuck (f : DebugDescriptor -> M Value)
    (I : State -> Prop) (l : list DebugDescriptor) (y : DebugDescriptor) :
  In y l ->
  (forall x st v st', In x l -> I st -> f x st = Some (v, st') -> I st') ->
  (forall st, I st -> f y st = None) ->
  forall st, I st -> MDNodes_loop f l st = None.
Proof.
  induction l as [|x l IH]; intros Hy Hstep Hstuck st HI; [destruct Hy|].
  simpl. unfold bind, ret.
  destruct (f x st) as [[v st1]|] eqn:Hx; [|reflexivity].
  destruct Hy as [->|Hy].
  - rewrite (Hstuck st HI) in Hx. discriminate Hx.
  - rewrite (IH Hy (fun z s w s' Hz => Hstep z s w s' (or_intror Hz)) Hstuck st1).
    + reflexivity.
    + apply (Hstep x st v st1); [left; reflexivity | exact HI | exact Hx].
Qed.

Lemma MDNodes_loop_returns (f : DebugDescriptor -> M Value)
    (l : list DebugDescriptor) :
  (forall x st, In x l -> exists v st', f x st = Some (v, st')) ->
  forall st, exists vs st', MDNodes_loop f l st = Some (vs, st').
Proof.
  induction l as [|x l IH]; intros Hall st.
  - eexists _, _. reflexivity.
  - simpl. unfold bind, ret.
    destruct (Hall x st (or_introl eq_refl)) as [v [st1 Hx]]. rewrite Hx.
    destruct (IH (fun y s Hy => Hall y s (or_intror Hy)) st1) as [vs [st2 Hl]].
    rewrite Hl. eexists _, _. reflexivity.
Qed.

Lemma mdNode_calls (f : DebugDescriptor -> M Value) (o : Object)
    (st : State) (v : Value) (st' : State) :
  mdNode f o st = Some (v, st') ->
  exists vs, MDNodes_loop f (refs o) st = Some (vs, st').
Proof.
  intros Hv. pose proof (mdNode_normal f o st) as Hn.
  destruct (MDNodes_loop f (refs o) st) as [[vs s]|].
  - destruct Hn as [w Hw]. rewrite Hv in Hw. injection Hw as _ <-.
    exists vs. reflexivity.
  - rewrite Hv in Hn. discriminate Hn.
Qed.

Lemma mdNode_stuck (f : DebugDescriptor -> M Value) (o : Object) (st : State) :
  MDNodes_loop f (refs o) st = None -> mdNode f o st = None.
Proof.
  intros Hl. pose proof (mdNode_normal f o st) as Hn.
  rewrite Hl in Hn. exact Hn.
Qed.

Lemma mdNode_returns (f : DebugDescriptor -> M Value) (o : Object)
    (st : State) (vs : list Value) (st' : State) :
  MDNodes_loop f (refs o) st = Some (vs, st') ->
  exists v, mdNode f o st = Some (v, st').
Proof.
  intros Hl. pose proof (mdNode_normal f o st) as Hn.
  rewrite Hl in Hn. exact Hn.
Qed.

(** ** Descriptors whose lowering is in progress *)

Lemma untouched_refl (W : list DebugDescriptor) (st : State) :
  (forall s, In s W -> cached st s = None) -> untouched W st st.
Proof. intros H s Hs. split; [apply H; exact Hs | reflexivity]. Qed.

Lemma untouched_make_cache (W : list DebugDescriptor) (st : State) :
  (forall s, In s W -> cached st s = None) -> untouched W st (make_cache st).
Proof.
  intros H s Hs. rewrite cached_make_cache, invocations_make_cache.
  split; [apply H; exact Hs | reflexivity].
Qed.

(** While descriptors wait for [x], a lowering of [x] that returns has left
    them alone; and if [x] is itself one of them, its lowering cannot return
    with any amount of fuel: the recursion comes back to a waiting descriptor
    before any of them is cached. *)
Lemma pending_untouched (heap : gmap N Object) (n : nat) :
  forall (W : list DebugDescriptor) (x : DebugDescriptor) (st : State),
    pending heap W x st ->
    (In x W -> DebugInfo_MDNode heap n x st = None)
    /\ (forall v st',
          DebugInfo_MDNode heap n x st = Some (v, st') -> untouched W st st').
Proof.
  induction n as [|n IH]; intros W x st HP.
  - split.
    + intros Hx. destruct (HP x Hx) as [Hnil [Hc _]].
      rewrite DebugInfo_MDNode_unfold, Hnil, cached_make_cache, Hc.
      reflexivity.
    + intros v st' H. rewrite DebugInfo_MDNode_unfold in H.
      destruct (is_nil x).
      * injection H as _ <-. apply untouched_refl. intros s Hs. apply (HP s Hs).
      * destruct (cached (make_cache st) x); [|discriminate].
        injection H as _ <-. apply untouched_make_cache.
        intros s Hs. apply (HP s Hs).
  - assert (Hstuck : In x W -> DebugInfo_MDNode heap (S n) x st = None).
    { intros Hx. destruct (HP x Hx) as [Hnil [Hc [y [[o [Ho Hy]] Hin]]]].
      rewrite DebugInfo_MDNode_unfold, Hnil, cached_make_cache, Hc, Ho.
      assert (HyS : In y W) by (destruct Hin as [?| ->]; assumption).
      assert (Hwait : forall g s,
                 (forall s0, In s0 W -> cached s s0 = None) ->
                 pending heap W g s).
      { intros g s Hs s0 Hs0. destruct (HP s0 Hs0) as [Hn0 [_ [y0 [He0 Hi0]]]].
        split; [exact Hn0|]. split; [apply Hs; exact Hs0|].
        exists y0. split; [exact He0|]. left.
        destruct Hi0 as [?| ->]; assumption. }
      rewrite (mdNode_stuck _ _ _
        (MDNodes_loop_stuck (DebugInfo_MDNode heap n)
           (fun s => forall s0, In s0 W -> cached s s0 = None)
           (refs o) y Hy
           (fun g s v s' _ Hs Hrun s0 Hs0 =>
              proj1 (proj2 (IH W g s (Hwait g s Hs)) v s' Hrun s0 Hs0))
           (fun s Hs => proj1 (IH W y s (Hwait y s Hs)) HyS)
           (enter x (make_cache st))
           (fun s0 Hs0 =>
              eq_trans (cached_make_cache st s0)
                       (proj1 (proj2 (HP s0 Hs0)))))).
      reflexivity. }
    split; [exact Hstuck|].
    intros v st' H.
    destruct (in_dec DebugDescriptor_eq_dec x W) as [Hx|Hx].
    { rewrite (Hstuck Hx) in H. discriminate H. }
    rewrite DebugInfo_MDNode_unfold in H.
    destruct (is_nil x) eqn:Hnil.
    { injection H as _ <-. apply untouched_refl. intros s Hs. apply (HP s Hs). }
    destruct (cached (make_cache st) x) eqn:Hc.
    { injection H as _ <-. apply untouched_make_cache.
      intros s Hs. apply (HP s Hs). }
    rewrite cached_make_cache in Hc.
    destruct (deref heap x) as [o|] eqn:Ho; [|discriminate].
    destruct (mdNode (DebugInfo_MDNode heap n) o (enter x (make_cache st)))
      as [[v0 st2]|] eqn:Hbody; [|discriminate].
    injection H as _ <-.
    destruct (mdNode_calls _ _ _ _ _ Hbody) as [vs Hloop].
    assert (HJ : untouched (x :: W) (enter x (make_cache st)) st2).
    { apply (MDNodes_loop_invariant (DebugInfo_MDNode heap n)
               (untouched (x :: W) (enter x (make_cache st)))
               (refs o)) with (st := enter x (make_cache st)) (vs := vs).
      - intros g s w s' Hg HJ Hrun.
        assert (HPg : pending heap (x :: W) g s).
        { intros s0 Hs0. split; [|split].
          - destruct Hs0 as [<-|Hs0]; [exact Hnil | apply (HP s0 Hs0)].
          - apply (HJ s0 Hs0).
          - destruct Hs0 as [<-|Hs0].
            + exists g. split; [exists o; split; assumption | right; reflexivity].
            + destruct (HP s0 Hs0) as [_ [_ [y0 [He0 Hi0]]]].
              exists y0. split; [exact He0|]. left.
              destruct Hi0 as [Hi0| ->]; [right; exact Hi0 | left; reflexivity]. }
        intros s0 Hs0.
        destruct (proj2 (IH (x :: W) g s HPg) w s' Hrun s0 Hs0) as [Hc' Hi'].
        split; [exact Hc'|]. rewrite Hi'. apply (HJ s0 Hs0).
      - apply untouched_refl. intros s0 Hs0.
        rewrite cached_enter, cached_make_cache.
        destruct Hs0 as [<-|Hs0]; [exact Hc | apply (HP s0 Hs0)].
      - exact Hloop. }
    intros s Hs.
    assert (Hne : x <> s) by (intros ->; contradiction).
    destruct (HJ s (or_intror Hs)) as [Hcs His].
    rewrite (cached_store_other _ _ _ _ Hne), invocations_store.
    split; [exact Hcs|].
    rewrite His, (invocations_enter_other _ _ _ Hne).
    apply invocations_make_cache.
Qed.

(** ** Acyclic descriptor graphs *)

Lemma deref_Some (heap : gmap N Object) (d : DebugDescriptor) (o : Object) :
  deref heap d = Some o ->
  exists ty a, d = boxed ty (Some a) /\ heap !! a = Some o.
Proof.
  destruct d as [|ty [a|]]; try discriminate. simpl.
  destruct (heap !! a) as [o'|] eqn:Ha; [|discriminate].
  destruct (decide (dynamic_type o' = ty)); [|discriminate].
  intros [= ->]. exists ty, a. split; [reflexivity | exact Ha].
Qed.

Lemma acyclic_ref (heap : gmap N Object) (rank : N -> nat)
    (a : N) (o : Object) (x : DebugDescriptor) :
  acyclic heap rank = true -> heap !! a = Some o -> In x (refs o) ->
  ref_ok heap rank a x = true.
Proof.
  intros Hac Ha Hx. unfold acyclic in Hac.
  rewrite forallb_forall in Hac.
  assert (Hin : In (a, o) (map_to_list heap)).
  { apply list_elem_of_In, elem_of_map_to_list. exact Ha. }
  specialize (Hac (a, o) Hin). simpl in Hac.
  rewrite forallb_forall in Hac. apply Hac. exact Hx.
Qed.

(** In an acyclic heap every lowering returns, given fuel for the depth of
    the descriptor. *)
Lemma MDNode_returns_acyclic (heap : gmap N Object) (rank : N -> nat) :
  acyclic heap rank = true ->
  forall (n : nat) (x : DebugDescriptor) (st : State),
    is_nil x = true \/ (is_Some (deref heap x) /\ (depth rank x <= n)%nat) ->
    exists v st', DebugInfo_MDNode heap n x st = Some (v, st').
Proof.
  intros Hac. induction n as [|n IH]; intros x st Hx;
    rewrite DebugInfo_MDNode_unfold.
  - destruct Hx as [Hnil|[[o Ho] Hd]].
    + rewrite Hnil. eexists _, _. reflexivity.
    + destruct (deref_Some _ _ _ Ho) as [ty [a [-> _]]]. simpl in Hd. lia.
  - destruct Hx as [Hnil|[[o Ho] Hd]].
    + rewrite Hnil. eexists _, _. reflexivity.
    + destruct (deref_Some _ _ _ Ho) as [ty [a [-> Ha]]].
      change (is_nil (boxed ty (Some a))) with false. cbn iota.
      destruct (cached (make_cache st) (boxed ty (Some a))) as [w|].
      { eexists _, _. reflexivity. }
      rewrite Ho.
      destruct (MDNodes_loop_returns (DebugInfo_MDNode heap n) (refs o))
        with (st := enter (boxed ty (Some a)) (make_cache st))
        as [vs [st2 Hloop]].
      { intros g s Hg. apply IH.
        pose proof (acyclic_ref _ _ _ _ _ Hac Ha Hg) as Hok.
        destruct g as [|ty' [b|]]; [left; reflexivity | | left; reflexivity].
        right. unfold ref_ok in Hok.
        destruct (deref heap (boxed ty' (Some b))) as [o'|]; [|discriminate].
        split; [eexists; reflexivity|].
        apply Nat.ltb_lt in Hok. simpl in Hd |- *. lia. }
      destruct (mdNode_returns _ _ _ _ _ Hloop) as [v Hv].
      rewrite Hv. eexists _, _. reflexivity.
Qed.

(** ** The lowering cache: memoisation *)

(** Whenever the lowering of a descriptor returns, the cache holds the
    returned node under that descriptor, every later lowering returns the
    same node without changing the state, and the descriptor's [mdNode] has
    been invoked once if it was not cached before and not at all if it was.
    No assumption on the descriptor graph is needed: had the recursion come
    back to the descriptor, it would not have returned. *)
Lemma MDNode_returns_memoised (heap : gmap N Object) (n : nat)
    (d : DebugDescriptor) (st : State) (v : Value) (st1 : State) :
  is_nil d = false ->
  DebugInfo_MDNode heap n d st = Some (v, st1) ->
  (forall fuel, DebugInfo_MDNode heap fuel d st1 = Some (v, st1))
  /\ cached st1 d = Some v
  /\ invocations d st1
     = (invocations d st + match cached st d with Some _ => 0 | None => 1 end)%nat.
Proof.
  intros Hnil H.
  assert (Hgoal : cached st1 d = Some v
                  /\ invocations d st1
                     = (invocations d st
                        + match cached st d with Some _ => 0 | None => 1 end)%nat).
  { rewrite DebugInfo_MDNode_unfold, Hnil, cached_make_cache in H.
    destruct (cached st d) as [w|] eqn:Hc.
    - injection H as <- <-. rewrite (make_cache_hit _ _ _ Hc).
      split; [exact Hc | lia].
    - destruct n as [|n]; [discriminate|].
      destruct (deref heap d) as [o|] eqn:Ho; [|discriminate].
      destruct (mdNode (DebugInfo_MDNode heap n) o (enter d (make_cache st)))
        as [[v0 st2]|] eqn:Hbody; [|discriminate].
      injection H as <- <-.
      split; [apply cached_store_same|].
      destruct (mdNode_calls _ _ _ _ _ Hbody) as [vs Hloop].
      assert (HJ : untouched [d] (enter d (make_cache st)) st2).
      { apply (MDNodes_loop_invariant (DebugInfo_MDNode heap n)
                 (untouched [d] (enter d (make_cache st)))
                 (refs o)) with (st := enter d (make_cache st)) (vs := vs).
        - intros g s w s' Hg HJ Hrun.
          assert (HPg : pending heap [d] g s).
          { intros s0 [<-|[]]. split; [exact Hnil|].
            split; [apply (HJ d); left; reflexivity|].
            exists g. split; [exists o; split; assumption | right; reflexivity]. }
          intros s0 Hs0.
          destruct (proj2 (pending_untouched heap n [d] g s HPg) w s' Hrun s0 Hs0)
            as [Hc' Hi'].
          split; [exact Hc'|]. rewrite Hi'. apply (HJ s0 Hs0).
        - apply untouched_refl. intros s0 [<-|[]].
          rewrite cached_enter, cached_make_cache. exact Hc.
        - exact Hloop. }
      destruct (HJ d (or_introl eq_refl)) as [_ Hi].
      rewrite invocations_store, Hi, invocations_enter_same,
        invocations_make_cache.
      lia. }
  destruct Hgoal as [Hc Hi]. split; [|split; assumption].
  intros fuel. apply MDNode_hit; assumption.
Qed.

(** A descriptor that refers to itself is never lowered: with any amount of
    fuel the recursion returns to it before it is cached. *)
Lemma self_reference_never_returns (fuel : nat) :
  DebugInfo_MDNode example_cyclic_heap fuel example_self fresh = None.
Proof.
  apply (pending_untouched example_cyclic_heap fuel
           [example_self] example_self fresh);
    [|left; reflexivity].
  intros s [<-|[]]. split; [reflexivity|]. split; [reflexivity|].
  exists example_self. split; [|left; left; reflexivity].
  exists (ODerivedType (NewPointerDerivedType example_self)).
  split; [vm_compute; reflexivity | right; right; left; reflexivity].
Qed.

(** C1 as stated fails twice.  Lowering the basic type of the example
    through a new cache lowers and caches its file on the way; lowering that
    file twice afterwards returns the cached node twice and never invokes the
    file's [mdNode].  And the lowering of a live, non-nil descriptor that
    refers to itself does not return at all. *)
Lemma MDNode_not_always_once :
  (is_nil (of_file (Some 1%N)) = false
   /\ is_Some (deref example_heap (of_file (Some 1%N)))
   /\ (exists v, DebugInfo_MDNode example_heap 2
                   (boxed PBasicTypeDescriptor (Some 2%N)) fresh
                 = Some (v, example_after_int))
   /\ ~ lowered_twice_invoked_once example_heap (of_file (Some 1%N))
          example_after_int)
  /\ (is_nil example_self = false
      /\ is_Some (deref example_cyclic_heap example_self)
      /\ ~ lowered_twice_invoked_once example_cyclic_heap example_self fresh).
Proof.
  split.
  - split; [reflexivity|]. split; [eexists; reflexivity|].
    split; [eexists; vm_compute; reflexivity|].
    intros (fuel1 & fuel2 & v & st1 & st2 & H1 & H2 & Hi).
    assert (Hc : cached example_after_int (of_file (Some 1%N))
                 = Some example_file_node) by (vm_compute; reflexivity).
    assert (Hnil : is_nil (of_file (Some 1%N)) = false) by reflexivity.
    rewrite (MDNode_hit _ _ _ _ _ Hnil Hc) in H1. injection H1 as <- <-.
    rewrite (MDNode_hit _ _ _ _ _ Hnil Hc) in H2. injection H2 as <-.
    lia.
  - split; [reflexivity|]. split; [eexists; reflexivity|].
    intros (fuel1 & fuel2 & v & st1 & st2 & H1 & _).
    rewrite self_reference_never_returns in H1. discriminate H1.
Qed.

(** C1, amended.  In an acyclic descriptor graph the lowering of a non-nil
    descriptor returns; a second lowering through the same cache returns the
    same node and changes nothing; the cache holds the node under the
    descriptor; and across the two calls the descriptor's [mdNode] is invoked
    exactly once if the descriptor was not cached before the first call, and
    not at all if it was. *)
Theorem MDNode_twice (heap : gmap N Object) (rank : N -> nat)
    (d : DebugDescriptor) (o : Object) (st : State) (fuel : nat) :
  acyclic heap rank = true ->
  deref heap d = Some o ->
  (depth rank d <= fuel)%nat ->
  exists (v : Value) (st1 : State),
    DebugInfo_MDNode heap fuel d st = Some (v, st1)
    /\ (forall fuel', DebugInfo_MDNode heap fuel' d st1 = Some (v, st1))
    /\ cached st1 d = Some v
    /\ invocations d st1
       = (invocations d st
          + match cached st d with Some _ => 0 | None => 1 end)%nat.
Proof.
  intros Hac Ho Hfuel.
  destruct (MDNode_returns_acyclic heap rank Hac fuel d st) as [v [st1 H]].
  { right. split; [exists o; exact Ho | exact Hfuel]. }
  exists v, st1. split; [exact H|].
  apply (MDNode_returns_memoised heap fuel d st v st1); [|exact H].
  destruct (deref_Some _ _ _ Ho) as [ty [a [-> _]]]. reflexivity.
Qed.

Lemma MDNode_twice_witness :
  exists (v : Value) (st1 : State),
    DebugInfo_MDNode example_heap 3
      (boxed PBasicTypeDescriptor (Some 2%N)) fresh = Some (v, st1)
    /\ (forall fuel',
          DebugInfo_MDNode example_heap fuel'
            (boxed PBasicTypeDescriptor (Some 2%N)) st1 = Some (v, st1))
    /\ cached st1 (boxed PBasicTypeDescriptor (Some 2%N)) = Some v
    /\ invocations (boxed PBasicTypeDescriptor (Some 2%N)) st1
       = (invocations (boxed PBasicTypeDescriptor (Some 2%N)) fresh + 1)%nat.
Proof.
  apply (MDNode_twice example_heap N.to_nat
           (boxed PBasicTypeDescriptor (Some 2%N)) (OBasicType example_int)
           fresh 3).
  - vm_compute. reflexivity.
  - vm_compute. reflexivity.
  - vm_compute. lia.
Defined.

(** * Further properties of the lowering cache *)

Lemma MDNode_absent (heap : gmap N Object) (fuel : nat)
    (d : DebugDescriptor) (st : State) :
  is_nil d = true -> DebugInfo_MDNode heap fuel d st = Some (ValueNil, st).
Proof. intros Hnil. rewrite DebugInfo_MDNode_unfold, Hnil. reflexivity. Qed.

(** ** Entries are never replaced *)

Lemma MDNode_keeps_entries (heap : gmap N Object) (n : nat) :
  forall (d : DebugDescriptor) (st : State) (v : Value) (st' : State)
         (x : DebugDescriptor) (w : Value),
    cached st x = Some w ->
    DebugInfo_MDNode heap n d st = Some (v, st') ->
    cached st' x = Some w.
Proof.
  induction n as [|n IH]; intros d st v st' x w Hx H;
    rewrite DebugInfo_MDNode_unfold in H;
    (destruct (is_nil d); [injection H as _ <-; exact Hx|]);
    (destruct (cached (make_cache st) d) eqn:Hc;
     [injection H as _ <-; rewrite cached_make_cache; exact Hx|]);
    [discriminate H|].
  destruct (deref heap d) as [o|]; [|discriminate].
  destruct (mdNode (DebugInfo_MDNode heap n) o (enter d (make_cache st)))
    as [[v0 st2]|] eqn:Hbody; [|discriminate].
  injection H as _ <-.
  destruct (mdNode_calls _ _ _ _ _ Hbody) as [vs Hloop].
  assert (Hne : d <> x).
  { intros ->. rewrite cached_make_cache, Hx in Hc. discriminate Hc. }
  rewrite (cached_store_other _ _ _ _ Hne).
  apply (MDNodes_loop_invariant (DebugInfo_MDNode heap n)
           (fun s => cached s x = Some w) (refs o))
    with (st := enter d (make_cache st)) (vs := vs).
  - intros g s u s' _ Hs Hrun. exact (IH g s u s' x w Hs Hrun).
  - rewrite cached_enter, cached_make_cache. exact Hx.
  - exact Hloop.
Qed.

Lemma MDNodes_loop_keeps_entries (heap : gmap N Object) (n : nat)
    (l : list DebugDescriptor) (st : State) (vs : list Value) (st' : State)
    (x : DebugDescriptor) (w : Value) :
  cached st x = Some w ->
  MDNodes_loop (DebugInfo_MDNode heap n) l st = Some (vs, st') ->
  cached st' x = Some w.
Proof.
  intros Hx Hloop.
  apply (MDNodes_loop_invariant (DebugInfo_MDNode heap n)
           (fun s => cached s x = Some w) l) with (st := st) (vs := vs).
  - intros g s u s' _ Hs Hrun.
    exact (MDNode_keeps_entries heap n g s u s' x w Hs Hrun).
  - exact Hx.
  - exact Hloop.
Qed.

(** X1.  No lowering, of one descriptor or of a sequence, replaces or removes
    an entry of the cache: what is cached before is cached after, with the
    same node. *)
Theorem cache_entries_are_kept (heap : gmap N Object) (n : nat)
    (st : State) (x : DebugDescriptor) (w : Value) :
  cached st x = Some w ->
  (forall d v st',
     DebugInfo_MDNode heap n d st = Some (v, st') -> cached st' x = Some w)
  /\ (forall l vs st',
        DebugInfo_MDNodes heap n l st = Some (vs, st') -> cached st' x = Some w).
Proof.
  intros Hx. split.
  - intros d v st' H. exact (MDNode_keeps_entries heap n d st v st' x w Hx H).
  - intros l vs st' H. unfold DebugInfo_MDNodes in H.
    rewrite info_MDNodes_loop in H.
    exact (MDNodes_loop_keeps_entries heap n l st vs st' x w Hx H).
Qed.

Lemma cache_entries_are_kept_witness :
  (forall d v st',
     DebugInfo_MDNode example_heap 2 d example_file_cached = Some (v, st') ->
     cached st' (of_file (Some 1%N)) = Some example_file_node)
  /\ (forall l vs st',
        DebugInfo_MDNodes example_heap 2 l example_file_cached = Some (vs, st') ->
        cached st' (of_file (Some 1%N)) = Some example_file_node).
Proof.
  apply (cache_entries_are_kept example_heap 2 example_file_cached
           (of_file (Some 1%N)) example_file_node).
  vm_compute. reflexivity.
Defined.

(** ** Lowering a sequence *)

Lemma MDNodes_loop_results (heap : gmap N Object) (n : nat) :
  forall (l : list DebugDescriptor) (st : State) (vs : list Value) (st' : State),
    MDNodes_loop (DebugInfo_MDNode heap n) l st = Some (vs, st') ->
    length vs = length l
    /\ (forall (i : nat) (d : DebugDescriptor),
          l !! i = Some d ->
          exists v, vs !! i = Some v
                    /\ if is_nil d then v = ValueNil
                       else cached st' d = Some v)
    /\ ((forall d, In d l -> is_nil d = true) -> st' = st).
Proof.
  induction l as [|x l IH]; intros st vs st' H.
  - injection H as <- <-. split; [reflexivity|]. split; [|reflexivity].
    intros i d Hi. discriminate Hi.
  - simpl in H. unfold bind, ret in H.
    destruct (DebugInfo_MDNode heap n x st) as [[v st1]|] eqn:Hx; [|discriminate].
    destruct (MDNodes_loop (DebugInfo_MDNode heap n) l st1) as [[vs' st2]|]
      eqn:Hl; [|discriminate].
    injection H as <- <-.
    destruct (IH st1 vs' st2 Hl) as [Hlen [Helt Hsame]].
    split; [simpl; rewrite Hlen; reflexivity|]. split.
    + intros [|i] d Hi.
      * injection Hi as <-. exists v. split; [reflexivity|].
        destruct (is_nil x) eqn:Hnil.
        -- rewrite (MDNode_absent _ _ _ _ Hnil) in Hx. injection Hx as <- _.
           reflexivity.
        -- destruct (MDNode_returns_memoised heap n x st v st1 Hnil Hx)
             as [_ [Hc _]].
           exact (MDNodes_loop_keeps_entries heap n l st1 vs' st2 x v Hc Hl).
      * exact (Helt i d Hi).
    + intros Hall.
      rewrite (MDNode_absent _ _ _ _ (Hall x (or_introl eq_refl))) in Hx.
      injection Hx as _ <-.
      apply Hsame. intros d Hd. apply Hall. right. exact Hd.
Qed.

(** X2.  [MDNodes] returns as many nodes as it was given descriptors, in the
    same order: the node at each position is the empty node for a nil
    descriptor and otherwise the node that the cache holds for that
    descriptor afterwards.  When every descriptor is nil (in particular for
    an empty sequence) the state is left as it was. *)
Theorem MDNodes_results (heap : gmap N Object) (n : nat)
    (l : list DebugDescriptor) (st : State) (vs : list Value) (st' : State) :
  DebugInfo_MDNodes heap n l st = Some (vs, st') ->
  length vs = length l
  /\ (forall (i : nat) (d : DebugDescriptor),
        l !! i = Some d ->
        exists v, vs !! i = Some v
                  /\ if is_nil d then v = ValueNil else cached st' d = Some v)
  /\ ((forall d, In d l -> is_nil d = true) -> st' = st).
Proof.
  intros H. unfold DebugInfo_MDNodes in H. rewrite info_MDNodes_loop in H.
  exact (MDNodes_loop_results heap n l st vs st' H).
Qed.

Lemma MDNodes_results_witness :
  length [example_int_node; ValueNil; example_file_node] = 3%nat
  /\ (forall (i : nat) (d : DebugDescriptor),
        [boxed PBasicTypeDescriptor (Some 2%N); nil_interface;
         of_file (Some 1%N)] !! i = Some d ->
        exists v, [example_int_node; ValueNil; example_file_node] !! i = Some v
                  /\ if is_nil d then v = ValueNil
                     else cached example_after_int d = Some v)
  /\ ((forall d,
         In d [boxed PBasicTypeDescriptor (Some 2%N); nil_interface;
               of_file (Some 1%N)] -> is_nil d = true) ->
      example_after_int = fresh).
Proof.
  apply (MDNodes_results example_heap 2
           [boxed PBasicTypeDescriptor (Some 2%N); nil_interface;
            of_file (Some 1%N)]
           fresh [example_int_node; ValueNil; example_file_node]
           example_after_int).
  vm_compute. reflexivity.
Defined.

(** ** Every descriptor is lowered at most once *)

Lemma pending_cons (heap : gmap N Object) (W : list DebugDescriptor)
    (x g : DebugDescriptor) (o : Object) (st s : State) :
  pending heap W x st ->
  is_nil x = false -> deref heap x = Some o -> In g (refs o) ->
  (forall s0, In s0 (x :: W) -> cached s s0 = None) ->
  pending heap (x :: W) g s.
Proof.
  intros HP Hnil Ho Hg Hs s0 Hs0. split; [|split].
  - destruct Hs0 as [<-|Hs0]; [exact Hnil | apply (HP s0 Hs0)].
  - apply Hs. exact Hs0.
  - destruct Hs0 as [<-|Hs0].
    + exists g. split; [exists o; split; assumption | right; reflexivity].
    + destruct (HP s0 Hs0) as [_ [_ [y0 [He0 Hi0]]]].
      exists y0. split; [exact He0|]. left.
      destruct Hi0 as [Hi0| ->]; [right; exact Hi0 | left; reflexivity].
Qed.

Lemma pending_lowered_once (heap : gmap N Object) (n : nat) :
  forall (W : list DebugDescriptor) (x : DebugDescriptor)
         (st : State) (v : Value) (st' : State),
    pending heap W x st ->
    lowered_once_outside W st ->
    DebugInfo_MDNode heap n x st = Some (v, st') ->
    lowered_once_outside W st'.
Proof.
  induction n as [|n IH]; intros W x st v st' HP HL H;
    pose proof H as Hrun;
    rewrite DebugInfo_MDNode_unfold in H;
    (destruct (is_nil x) eqn:Hnil; [injection H as _ <-; exact HL|]);
    (destruct (cached (make_cache st) x) eqn:Hc;
     [injection H as _ <-; intros d Hd;
      rewrite invocations_make_cache, cached_make_cache; exact (HL d Hd)|]);
    [discriminate H|].
  rewrite cached_make_cache in Hc.
  destruct (in_dec DebugDescriptor_eq_dec x W) as [Hx|Hx].
  { rewrite (proj1 (pending_untouched heap (S n) W x st HP) Hx) in Hrun.
    discriminate Hrun. }
  destruct (deref heap x) as [o|] eqn:Ho; [|discriminate].
  destruct (mdNode (DebugInfo_MDNode heap n) o (enter x (make_cache st)))
    as [[v0 st2]|] eqn:Hbody; [|discriminate].
  injection H as _ <-.
  destruct (mdNode_calls _ _ _ _ _ Hbody) as [vs Hloop].
  assert (HJ : untouched (x :: W) (enter x (make_cache st)) st2
               /\ lowered_once_outside (x :: W) st2).
  { apply (MDNodes_loop_invariant (DebugInfo_MDNode heap n)
             (fun s => untouched (x :: W) (enter x (make_cache st)) s
                       /\ lowered_once_outside (x :: W) s)
             (refs o)) with (st := enter x (make_cache st)) (vs := vs).
    - intros g s u s' Hg [HU HO] Hcall.
      assert (HPg : pending heap (x :: W) g s).
      { apply (pending_cons heap W x g o st s HP Hnil Ho Hg).
        intros s0 Hs0. apply (HU s0 Hs0). }
      split.
      + intros s0 Hs0.
        destruct (proj2 (pending_untouched heap n (x :: W) g s HPg)
                    u s' Hcall s0 Hs0) as [Hc' Hi'].
        split; [exact Hc'|]. rewrite Hi'. apply (HU s0 Hs0).
      + exact (IH (x :: W) g s u s' HPg HO Hcall).
    - split.
      + apply untouched_refl. intros s0 Hs0.
        rewrite cached_enter, cached_make_cache.
        destruct Hs0 as [<-|Hs0]; [exact Hc | apply (HP s0 Hs0)].
      + intros d Hd.
        assert (Hne : x <> d) by (intros ->; apply Hd; left; reflexivity).
        rewrite (invocations_enter_other _ _ _ Hne), cached_enter,
          invocations_make_cache, cached_make_cache.
        apply HL. intros HdW. apply Hd. right. exact HdW.
    - exact Hloop. }
  destruct HJ as [HU HO]. intros d Hd.
  rewrite invocations_store.
  destruct (DebugDescriptor_eq_dec x d) as [<-|Hne].
  - rewrite cached_store_same.
    destruct (HU x (or_introl eq_refl)) as [_ Hi].
    rewrite Hi, invocations_enter_same, invocations_make_cache, (HL x Hx), Hc.
    reflexivity.
  - rewrite (cached_store_other _ _ _ _ Hne).
    apply HO. intros [He|HdW]; [contradiction | contradiction].
Qed.

(** X3.  A cache whose trace and entries agree keeps them in agreement
    through every lowering that returns: each descriptor that is cached has
    had its [mdNode] invoked exactly once, every other descriptor never, so
    that no descriptor is ever lowered twice through one cache. *)
Theorem MDNode_lowers_at_most_once (heap : gmap N Object) (n : nat)
    (x : DebugDescriptor) (st : State) (v : Value) (st' : State) :
  lowered_once st ->
  DebugInfo_MDNode heap n x st = Some (v, st') ->
  lowered_once st' /\ forall d, (invocations d st' <= 1)%nat.
Proof.
  intros HL H.
  assert (HL' : lowered_once st').
  { apply (pending_lowered_once heap n [] x st v st'); [|exact HL|exact H].
    intros s []. }
  split; [exact HL'|].
  intros d. rewrite (HL' d (fun F => F)).
  destruct (cached st' d); lia.
Qed.

Lemma MDNode_lowers_at_most_once_witness :
  lowered_once example_after_int
  /\ forall d, (invocations d example_after_int <= 1)%nat.
Proof.
  apply (MDNode_lowers_at_most_once example_heap 2
           (boxed PBasicTypeDescriptor (Some 2%N)) fresh
           example_int_node example_after_int).
  - intros d _. reflexivity.
  - vm_compute. reflexivity.
Defined.

(** ** Lowering touches only what the descriptor reaches *)

Lemma MDNode_frame (heap : gmap N Object) (n : nat) :
  forall (d : DebugDescriptor) (st : State) (v : Value) (st' : State)
         (y : DebugDescriptor),
    DebugInfo_MDNode heap n d st = Some (v, st') ->
    ~ reach heap d y ->
    cached st' y = cached st y /\ invocations y st' = invocations y st.
Proof.
  induction n as [|n IH]; intros d st v st' y H Hy;
    rewrite DebugInfo_MDNode_unfold in H;
    (destruct (is_nil d); [injection H as _ <-; split; reflexivity|]);
    (destruct (cached (make_cache st) d) eqn:Hc;
     [injection H as _ <-;
      rewrite invocations_make_cache, cached_make_cache; split; reflexivity|]);
    [discriminate H|].
  destruct (deref heap d) as [o|] eqn:Ho; [|discriminate].
  destruct (mdNode (DebugInfo_MDNode heap n) o (enter d (make_cache st)))
    as [[v0 st2]|] eqn:Hbody; [|discriminate].
  injection H as _ <-.
  destruct (mdNode_calls _ _ _ _ _ Hbody) as [vs Hloop].
  assert (Hne : d <> y) by (intros ->; apply Hy; apply reach_refl).
  rewrite (cached_store_other _ _ _ _ Hne), invocations_store.
  rewrite <- (cached_make_cache st y), <- (invocations_make_cache st y).
  rewrite <- (cached_enter d (make_cache st) y).
  rewrite <- (invocations_enter_other d y (make_cache st) Hne).
  apply (MDNodes_loop_invariant (DebugInfo_MDNode heap n)
           (fun s => cached s y = cached (enter d (make_cache st)) y
                     /\ invocations y s
                        = invocations y (enter d (make_cache st)))
           (refs o)) with (st := enter d (make_cache st)) (vs := vs).
  - intros g s u s' Hg [Hcs His] Hcall.
    destruct (IH g s u s' y Hcall) as [Hc' Hi'].
    { intros Hr. apply Hy.
      apply (reach_step heap d g y); [exists o; split; assumption | exact Hr]. }
    split; [rewrite Hc'; exact Hcs | rewrite Hi'; exact His].
  - split; reflexivity.
  - exact Hloop.
Qed.

Lemma reach_leaf (heap : gmap N Object) (d y : DebugDescriptor) (o : Object) :
  deref heap d = Some o -> refs o = [] -> reach heap d y -> y = d.
Proof.
  intros Ho Hrefs Hr. destruct Hr as [x|x g z [o' [Ho' Hg]] _]; [reflexivity|].
  rewrite Ho in Ho'. injection Ho' as <-. rewrite Hrefs in Hg. destruct Hg.
Qed.

(** X4.  A lowering that returns changes the cache and the trace only at
    descriptors that the lowered descriptor reaches through its references:
    for every other descriptor the cache entry (present or absent) and the
    number of invocations are as before.  In particular a second descriptor
    with the same contents is not cached along: the cache is keyed by
    identity. *)
Theorem MDNode_touches_only_reachable (heap : gmap N Object) (n : nat)
    (d : DebugDescriptor) (st : State) (v : Value) (st' : State)
    (y : DebugDescriptor) :
  DebugInfo_MDNode heap n d st = Some (v, st') ->
  ~ reach heap d y ->
  cached st' y = cached st y /\ invocations y st' = invocations y st.
Proof. intros H Hy. exact (MDNode_frame heap n d st v st' y H Hy). Qed.

Lemma MDNode_touches_only_reachable_witness :
  cached example_file_cached (of_file (Some 3%N))
  = cached fresh (of_file (Some 3%N))
  /\ invocations (of_file (Some 3%N)) example_file_cached
     = invocations (of_file (Some 3%N)) fresh.
Proof.
  apply (MDNode_touches_only_reachable example_twin_heap 1
           (of_file (Some 1%N)) fresh example_file_node example_file_cached
           (of_file (Some 3%N))).
  - vm_compute. reflexivity.
  - intros Hr.
    apply (reach_leaf example_twin_heap (of_file (Some 1%N))
             (of_file (Some 3%N)) (OFile "main.x"%string)) in Hr.
    + discriminate Hr.
    + vm_compute. reflexivity.
    + reflexivity.
Defined.

(** ** Cached nodes outlive the descriptors *)

(** X5.  Once the lowering of a non-nil descriptor has returned, every later
    lowering of it through the same cache returns the same node without
    invoking anything, whatever the descriptors have become in the meantime:
    the heap is not consulted for a cached descriptor, so a change made to a
    descriptor after it was lowered is never seen. *)
Theorem MDNode_ignores_later_changes (heap heap' : gmap N Object)
    (n fuel : nat) (d : DebugDescriptor) (st : State) (v : Value) (st1 : State) :
  is_nil d = false ->
  DebugInfo_MDNode heap n d st = Some (v, st1) ->
  DebugInfo_MDNode heap' fuel d st1 = Some (v, st1).
Proof.
  intros Hnil H.
  destruct (MDNode_returns_memoised heap n d st v st1 Hnil H) as [_ [Hc _]].
  apply MDNode_hit; assumption.
Qed.

Lemma MDNode_ignores_later_changes_witness :
  DebugInfo_MDNode example_cyclic_heap 0 (of_file (Some 1%N))
    example_file_cached
  = Some (example_file_node, example_file_cached).
Proof.
  apply (MDNode_ignores_later_changes example_heap example_cyclic_heap 1 0
           (of_file (Some 1%N)) fresh example_file_node example_file_cached).
  - reflexivity.
  - vm_compute. reflexivity.
Defined.

(** * Further field layouts *)

(** Splits the hypothesis that an object is [well_typed] into the ranges of
    its fields. *)
Ltac ranges H :=
  cbn [well_typed] in H;
  repeat match goal with
         | R : (_ && _)%bool = true |- _ => apply andb_prop in R as [? ?]
         end;
  repeat match goal with
         | R : is_uint32b _ = true |- _ => apply is_uint32b_true in R
         end.

(** Removes the conversion to [uint64] from the fields known to be in the
    range of [uint32]. *)
Ltac small_fields :=
  repeat match goal with
         | R : is_uint32 ?x |- context [uint64 ?x] =>
             rewrite (uint64_small x R)
         end.

Lemma MDNodes_length (heap : gmap N Object) (n : nat)
    (l : list DebugDescriptor) (st : State) (vs : list Value) (st' : State) :
  DebugInfo_MDNodes heap n l st = Some (vs, st') -> length vs = length l.
Proof.
  intros H. unfold DebugInfo_MDNodes in H. rewrite info_MDNodes_loop in H.
  exact (proj1 (MDNodes_loop_results heap n l st vs st' H)).
Qed.

(** X6.  A composite type lowers to a node of exactly thirteen fields:
    version plus tag, file, context, name, line, size, alignment, offset,
    flags, the empty node for the type derived from, a nested node with one
    operand per member in the order of the members, and two zero constants.
    It is produced as soon as the cache has answered for file, context and
    members, in this order. *)
Theorem CompositeTypeDescriptor_mdNode_fields
    (heap : gmap N Object) (n : nat) (d : CompositeTypeDescriptor.t)
    (st st1 st2 st3 : State) (file context : Value) (members : list Value) :
  well_typed (OCompositeType d) = true ->
  DebugInfo_MDNode heap n (of_file (CompositeTypeDescriptor.File d)) st
  = Some (file, st1) ->
  DebugInfo_MDNode heap n (CompositeTypeDescriptor.Context d) st1
  = Some (context, st2) ->
  DebugInfo_MDNodes heap n (CompositeTypeDescriptor.Members d) st2
  = Some (members, st3) ->
  CompositeTypeDescriptor.mdNode (DebugInfo_MDNode heap n) d st
  = Some (MDNode [
            ConstInt Int32Type
              (LLVMDebugVersion + CompositeTypeDescriptor.tag d) false;
            file;
            context;
            MDString (CompositeTypeDescriptor.Name d);
            ConstInt Int32Type (CompositeTypeDescriptor.Line d) false;
            ConstInt Int64Type (CompositeTypeDescriptor.Size d) false;
            ConstInt Int64Type (CompositeTypeDescriptor.Alignment d) false;
            ConstInt Int64Type (CompositeTypeDescriptor.Offset d) false;
            ConstInt Int32Type (CompositeTypeDescriptor.Flags d) false;
            ValueNil;
            MDNode members;
            ConstInt Int32Type 0 false;
            ConstInt Int32Type 0 false], st3)
  /\ length members = length (CompositeTypeDescriptor.Members d).
Proof.
  intros Hwt Hfile Hctx Hmem. ranges Hwt.
  split; [|exact (MDNodes_length _ _ _ _ _ _ Hmem)].
  unfold CompositeTypeDescriptor.mdNode, bind, ret.
  rewrite Hfile, Hctx, (MDNode_absent heap n nil_interface st2 eq_refl).
  unfold DebugInfo_MDNodes in Hmem. rewrite Hmem.
  unfold CompositeTypeDescriptor.Tag.
  rewrite add64_version by assumption.
  small_fields.
  reflexivity.
Qed.

Lemma CompositeTypeDescriptor_mdNode_fields_witness :
  CompositeTypeDescriptor.mdNode (DebugInfo_MDNode example_heap 2)
    example_func fresh
  = Some (MDNode [
            ConstInt Int32Type (LLVMDebugVersion + DW_TAG_subroutine_type) false;
            ValueNil;
            ValueNil;
            MDString EmptyString;
            ConstInt Int32Type 0 false;
            ConstInt Int64Type 0 false;
            ConstInt Int64Type 0 false;
            ConstInt Int64Type 0 false;
            ConstInt Int32Type 0 false;
            ValueNil;
            MDNode [example_int_node; example_int_node];
            ConstInt Int32Type 0 false;
            ConstInt Int32Type 0 false], example_after_int)
  /\ length [example_int_node; example_int_node]
     = length (CompositeTypeDescriptor.Members example_func).
Proof.
  apply (CompositeTypeDescriptor_mdNode_fields example_heap 2 example_func
           fresh fresh fresh example_after_int ValueNil ValueNil
           [example_int_node; example_int_node]).
  - reflexivity.
  - reflexivity.
  - reflexivity.
  - vm_compute. reflexivity.
Defined.

(** ** Lowering what the constructors make *)

Lemma NewSubroutineCompositeType_Members
    (Result : DebugDescriptor) (Params : list DebugDescriptor) :
  CompositeTypeDescriptor.Members (NewSubroutineCompositeType Result Params)
  = Result :: Params.
Proof.
  unfold NewSubroutineCompositeType. simpl.
  rewrite Nat.add_1_r. simpl. rewrite drop_0. f_equal.
  apply copy_over_zeroes.
Qed.

(** X7.  Lowering the subroutine type that [NewSubroutineCompositeType]
    makes gives the thirteen-field node with the subroutine tag, empty file
    and context, an empty name and zero line, size, alignment, offset and
    flags, whose member node holds the node of the result followed by the
    nodes of the parameters: the result is lowered first, then the
    parameters in their order. *)
Theorem NewSubroutineCompositeType_lowering
    (heap : gmap N Object) (n : nat)
    (Result : DebugDescriptor) (Params : list DebugDescriptor)
    (st st1 st2 : State) (result : Value) (params : list Value) :
  DebugInfo_MDNode heap n Result st = Some (result, st1) ->
  DebugInfo_MDNodes heap n Params st1 = Some (params, st2) ->
  CompositeTypeDescriptor.mdNode (DebugInfo_MDNode heap n)
    (NewSubroutineCompositeType Result Params) st
  = Some (MDNode [
            ConstInt Int32Type (LLVMDebugVersion + DW_TAG_subroutine_type) false;
            ValueNil;
            ValueNil;
            MDString EmptyString;
            ConstInt Int32Type 0 false;
            ConstInt Int64Type 0 false;
            ConstInt Int64Type 0 false;
            ConstInt Int64Type 0 false;
            ConstInt Int32Type 0 false;
            ValueNil;
            MDNode (result :: params);
            ConstInt Int32Type 0 false;
            ConstInt Int32Type 0 false], st2)
  /\ length (result :: params) = S (length Params).
Proof.
  intros Hres Hpar.
  split; [|simpl; rewrite (MDNodes_length _ _ _ _ _ _ Hpar); reflexivity].
  unfold DebugInfo_MDNodes in Hpar. rewrite info_MDNodes_loop in Hpar.
  unfold CompositeTypeDescriptor.mdNode, bind, ret.
  rewrite NewSubroutineCompositeType_Members.
  change (CompositeTypeDescriptor.File (NewSubroutineCompositeType Result Params))
    with (@None N).
  change (CompositeTypeDescriptor.Context
            (NewSubroutineCompositeType Result Params))
    with nil_interface.
  rewrite (MDNode_absent heap n (of_file None) st eq_refl).
  rewrite !(MDNode_absent heap n nil_interface st eq_refl).
  rewrite info_MDNodes_loop. simpl. unfold bind, ret.
  rewrite Hres, Hpar. reflexivity.
Qed.

Lemma NewSubroutineCompositeType_lowering_witness :
  CompositeTypeDescriptor.mdNode (DebugInfo_MDNode example_heap 2)
    (NewSubroutineCompositeType (boxed PBasicTypeDescriptor (Some 2%N))
       [of_file (Some 1%N); nil_interface]) fresh
  = Some (MDNode [
            ConstInt Int32Type (LLVMDebugVersion + DW_TAG_subroutine_type) false;
            ValueNil;
            ValueNil;
            MDString EmptyString;
            ConstInt Int32Type 0 false;
            ConstInt Int64Type 0 false;
            ConstInt Int64Type 0 false;
            ConstInt Int64Type 0 false;
            ConstInt Int32Type 0 false;
            ValueNil;
            MDNode (example_int_node :: [example_file_node; ValueNil]);
            ConstInt Int32Type 0 false;
            ConstInt Int32Type 0 false], example_after_int)
  /\ length (example_int_node :: [example_file_node; ValueNil])
     = S (length [of_file (Some 1%N); nil_interface]).
Proof.
  apply (NewSubroutineCompositeType_lowering example_heap 2
           (boxed PBasicTypeDescriptor (Some 2%N))
           [of_file (Some 1%N); nil_interface]
           fresh example_after_int example_after_int
           example_int_node [example_file_node; ValueNil]).
  - vm_compute. reflexivity.
  - vm_compute. reflexivity.
Defined.

(** X8.  Lowering the structure type that [NewStructCompositeType] makes
    gives the thirteen-field node with the structure tag whose member node
    holds the nodes of the given members in their order; the members are the
    only descriptors that are lowered. *)
Theorem NewStructCompositeType_lowering
    (heap : gmap N Object) (n : nat) (Members : list DebugDescriptor)
    (st st1 : State) (members : list Value) :
  DebugInfo_MDNodes heap n Members st = Some (members, st1) ->
  CompositeTypeDescriptor.mdNode (DebugInfo_MDNode heap n)
    (NewStructCompositeType Members) st
  = Some (MDNode [
            ConstInt Int32Type (LLVMDebugVersion + DW_TAG_structure_type) false;
            ValueNil;
            ValueNil;
            MDString EmptyString;
            ConstInt Int32Type 0 false;
            ConstInt Int64Type 0 false;
            ConstInt Int64Type 0 false;
            ConstInt Int64Type 0 false;
            ConstInt Int32Type 0 false;
            ValueNil;
            MDNode members;
            ConstInt Int32Type 0 false;
            ConstInt Int32Type 0 false], st1)
  /\ length members = length Members.
Proof.
  intros Hmem. split; [|exact (MDNodes_length _ _ _ _ _ _ Hmem)].
  unfold DebugInfo_MDNodes in Hmem.
  unfold CompositeTypeDescriptor.mdNode, bind, ret.
  change (CompositeTypeDescriptor.File (NewStructCompositeType Members))
    with (@None N).
  change (CompositeTypeDescriptor.Context (NewStructCompositeType Members))
    with nil_interface.
  change (CompositeTypeDescriptor.Members (NewStructCompositeType Members))
    with Members.
  rewrite (MDNode_absent heap n (of_file None) st eq_refl).
  rewrite !(MDNode_absent heap n nil_interface st eq_refl).
  rewrite Hmem. reflexivity.
Qed.

Lemma NewStructCompositeType_lowering_witness :
  CompositeTypeDescriptor.mdNode (DebugInfo_MDNode example_heap 2)
    (NewStructCompositeType
       [of_file (Some 1%N); boxed PBasicTypeDescriptor (Some 2%N)]) fresh
  = Some (MDNode [
            ConstInt Int32Type (LLVMDebugVersion + DW_TAG_structure_type) false;
            ValueNil;
            ValueNil;
            MDString EmptyString;
            ConstInt Int32Type 0 false;
            ConstInt Int64Type 0 false;
            ConstInt Int64Type 0 false;
            ConstInt Int64Type 0 false;
            ConstInt Int32Type 0 false;
            ValueNil;
            MDNode [example_file_node; example_int_node];
            ConstInt Int32Type 0 false;
            ConstInt Int32Type 0 false], example_int_cached)
  /\ length [example_file_node; example_int_node]
     = length [of_file (Some 1%N); boxed PBasicTypeDescriptor (Some 2%N)].
Proof.
  apply (NewStructCompositeType_lowering example_heap 2
           [of_file (Some 1%N); boxed PBasicTypeDescriptor (Some 2%N)]
           fresh example_int_cached [example_file_node; example_int_node]).
  vm_compute. reflexivity.
Defined.

(** ** Compilation units *)

Lemma uint64_int32 (r : Z) :
  is_int32b r = true -> uint64 r = if r <? 0 then 2 ^ 64 + r else r.
Proof.
  unfold is_int32b, uint64. intros H. apply andb_prop in H as [Hlo Hhi].
  apply Z.leb_le in Hlo. apply Z.ltb_lt in Hhi.
  destruct (Z.ltb_spec r 0) as [Hneg|Hpos].
  - rewrite <- (Z.mod_add r 1 (2 ^ 64)) by lia.
    rewrite Z.mod_small by lia. lia.
  - apply Z.mod_small. lia.
Qed.

(** X9.  A compilation unit lowers to a node of exactly thirteen fields.
    Its file is lowered directly from the path, without the cache; the
    optimisation flag is the one-bit all-ones or null constant; a negative
    runtime version is handed to the builder sign-extended to 64 bits; the
    four descriptor sequences are lowered in the order enumerations, retained
    types, subprograms, globals, each to a nested node of the same length;
    the last two fields are an empty node and an empty string. *)
Theorem CompileUnitDescriptor_mdNode_fields
    (heap : gmap N Object) (n : nat) (d : CompileUnitDescriptor.t)
    (st st1 st2 st3 st4 : State)
    (enums retained subprograms globals : list Value) :
  well_typed (OCompileUnit d) = true ->
  DebugInfo_MDNodes heap n (CompileUnitDescriptor.EnumTypes d) st
  = Some (enums, st1) ->
  DebugInfo_MDNodes heap n (CompileUnitDescriptor.RetainedTypes d) st1
  = Some (retained, st2) ->
  DebugInfo_MDNodes heap n (CompileUnitDescriptor.Subprograms d) st2
  = Some (subprograms, st3) ->
  DebugInfo_MDNodes heap n (CompileUnitDescriptor.GlobalVariables d) st3
  = Some (globals, st4) ->
  CompileUnitDescriptor.mdNode (DebugInfo_MDNode heap n) d st
  = Some (MDNode [
            ConstInt Int32Type (LLVMDebugVersion + DW_TAG_compile_unit) false;
            FileDescriptor.mdNode (CompileUnitDescriptor.Path d);
            ConstInt Int32Type (CompileUnitDescriptor.Language d) false;
            MDString (CompileUnitDescriptor.Producer d);
            (if CompileUnitDescriptor.Optimized d
             then ConstAllOnes Int1Type else ConstNull Int1Type);
            MDString (CompileUnitDescriptor.CompilerFlags d);
            ConstInt Int32Type
              (if CompileUnitDescriptor.Runtime d <? 0
               then 2 ^ 64 + CompileUnitDescriptor.Runtime d
               else CompileUnitDescriptor.Runtime d) false;
            MDNode enums;
            MDNode retained;
            MDNode subprograms;
            MDNode globals;
            MDNode [];
            MDString EmptyString], st4)
  /\ length enums = length (CompileUnitDescriptor.EnumTypes d)
  /\ length retained = length (CompileUnitDescriptor.RetainedTypes d)
  /\ length subprograms = length (CompileUnitDescriptor.Subprograms d)
  /\ length globals = length (CompileUnitDescriptor.GlobalVariables d).
Proof.
  intros Hwt He Hr Hs Hg.
  cbn [well_typed] in Hwt. apply andb_prop in Hwt as [Hlang Hrun].
  apply is_uint32b_true in Hlang.
  split; [|repeat split; eapply MDNodes_length; eassumption].
  unfold DebugInfo_MDNodes in He, Hr, Hs, Hg.
  unfold CompileUnitDescriptor.mdNode, bind, ret.
  rewrite He, Hr, Hs, Hg.
  rewrite (uint64_small _ Hlang), (uint64_int32 _ Hrun).
  reflexivity.
Qed.

Lemma CompileUnitDescriptor_mdNode_fields_witness :
  CompileUnitDescriptor.mdNode (DebugInfo_MDNode example_heap 2)
    example_unit fresh
  = Some (MDNode [
            ConstInt Int32Type (LLVMDebugVersion + DW_TAG_compile_unit) false;
            MDNode [MDString "main.x"; MDString "/src"];
            ConstInt Int32Type DW_LANG_Go false;
            MDString "llgo";
            ConstAllOnes Int1Type;
            MDString EmptyString;
            ConstInt Int32Type (2 ^ 64 + -1) false;
            MDNode [];
            MDNode [example_int_node];
            MDNode [];
            MDNode [ValueNil];
            MDNode [];
            MDString EmptyString], example_after_int)
  /\ length (@nil Value) = length (CompileUnitDescriptor.EnumTypes example_unit)
  /\ length [example_int_node]
     = length (CompileUnitDescriptor.RetainedTypes example_unit)
  /\ length (@nil Value)
     = length (CompileUnitDescriptor.Subprograms example_unit)
  /\ length [ValueNil]
     = length (CompileUnitDescriptor.GlobalVariables example_unit).
Proof.
  apply (CompileUnitDescriptor_mdNode_fields example_heap 2 example_unit
           fresh fresh example_after_int example_after_int example_after_int
           [] [example_int_node] [] [ValueNil]).
  - reflexivity.
  - reflexivity.
  - vm_compute. reflexivity.
  - reflexivity.
  - reflexivity.
Defined.

(** ** Subprograms and variables *)

(** X10.  A subprogram lowers to a node of exactly twenty fields.  Its file
    is lowered directly from the path, without the cache; only context and
    type are asked of the cache, in this order; the linkage name is empty,
    the subprogram is marked not static, locally defined, not virtual, not
    optimised, with the prototyped flag as its only flag; the three absent
    references lower to the empty node and the list of variables to an empty
    node; the generated function is passed through. *)
Theorem SubprogramDescriptor_mdNode_fields
    (heap : gmap N Object) (n : nat) (d : SubprogramDescriptor.t)
    (st st1 st2 : State) (context type : Value) :
  well_typed (OSubprogram d) = true ->
  DebugInfo_MDNode heap n (SubprogramDescriptor.Context d) st
  = Some (context, st1) ->
  DebugInfo_MDNode heap n (SubprogramDescriptor.Type_ d) st1
  = Some (type, st2) ->
  SubprogramDescriptor.mdNode (DebugInfo_MDNode heap n) d st
  = Some (MDNode [
            ConstInt Int32Type (LLVMDebugVersion + DW_TAG_subprogram) false;
            FileDescriptor.mdNode (SubprogramDescriptor.Path d);
            context;
            MDString (SubprogramDescriptor.Name d);
            MDString (SubprogramDescriptor.DisplayName d);
            MDString EmptyString;
            ConstInt Int32Type (SubprogramDescriptor.Line d) false;
            type;
            ConstNull Int1Type;
            ConstAllOnes Int1Type;
            ConstNull Int32Type;
            ConstNull Int32Type;
            ValueNil;
            ConstInt Int32Type 256 false;
            ConstNull Int1Type;
            SubprogramDescriptor.Function d;
            ValueNil;
            ValueNil;
            MDNode [];
            ConstInt Int32Type (SubprogramDescriptor.ScopeLine d) false], st2).
Proof.
  intros Hwt Hctx Htype. ranges Hwt.
  unfold SubprogramDescriptor.mdNode, bind, ret.
  rewrite Hctx, Htype.
  rewrite !(MDNode_absent heap n nil_interface st2 eq_refl).
  small_fields.
  reflexivity.
Qed.

Lemma SubprogramDescriptor_mdNode_fields_witness :
  SubprogramDescriptor.mdNode (DebugInfo_MDNode example_heap 2)
    example_subprogram fresh
  = Some (MDNode [
            ConstInt Int32Type (LLVMDebugVersion + DW_TAG_subprogram) false;
            MDNode [MDString "main.x"; MDString "/src"];
            ValueNil;
            MDString "main";
            MDString "main.main";
            MDString EmptyString;
            ConstInt Int32Type 3 false;
            example_int_node;
            ConstNull Int1Type;
            ConstAllOnes Int1Type;
            ConstNull Int32Type;
            ConstNull Int32Type;
            ValueNil;
            ConstInt Int32Type 256 false;
            ConstNull Int1Type;
            Handle 7;
            ValueNil;
            ValueNil;
            MDNode [];
            ConstInt Int32Type 4 false], example_after_int).
Proof.
  apply (SubprogramDescriptor_mdNode_fields example_heap 2 example_subprogram
           fresh fresh example_after_int ValueNil example_int_node).
  - reflexivity.
  - reflexivity.
  - vm_compute. reflexivity.
Defined.

(** X11.  A global variable lowers to a node of exactly twelve fields; the
    cache is asked for context, file and type, in this order; the is-local
    field is the one-bit constant of [Local], and the is-defined field is
    the one-bit constant of the negation of [External]; the generated
    storage value is passed through. *)
Theorem GlobalVariableDescriptor_mdNode_fields
    (heap : gmap N Object) (n : nat) (d : GlobalVariableDescriptor.t)
    (st st1 st2 st3 : State) (context file type : Value) :
  well_typed (OGlobalVariable d) = true ->
  DebugInfo_MDNode heap n (GlobalVariableDescriptor.Context d) st
  = Some (context, st1) ->
  DebugInfo_MDNode heap n (of_file (GlobalVariableDescriptor.File d)) st1
  = Some (file, st2) ->
  DebugInfo_MDNode heap n (GlobalVariableDescriptor.Type_ d) st2
  = Some (type, st3) ->
  GlobalVariableDescriptor.mdNode (DebugInfo_MDNode heap n) d st
  = Some (MDNode [
            ConstInt Int32Type (LLVMDebugVersion + DW_TAG_variable) false;
            ConstNull Int32Type;
            context;
            MDString (GlobalVariableDescriptor.Name d);
            MDString (GlobalVariableDescriptor.DisplayName d);
            MDNode [];
            file;
            ConstInt Int32Type (GlobalVariableDescriptor.Line d) false;
            type;
            (if GlobalVariableDescriptor.Local d
             then ConstAllOnes Int1Type else ConstNull Int1Type);
            (if GlobalVariableDescriptor.External d
             then ConstNull Int1Type else ConstAllOnes Int1Type);
            GlobalVariableDescriptor.Value_ d], st3).
Proof.
  intros Hwt Hctx Hfile Htype. ranges Hwt.
  unfold GlobalVariableDescriptor.mdNode, bind, ret.
  rewrite Hctx, Hfile, Htype.
  small_fields.
  unfold constInt1.
  destruct (GlobalVariableDescriptor.External d); reflexivity.
Qed.

Lemma GlobalVariableDescriptor_mdNode_fields_witness :
  GlobalVariableDescriptor.mdNode (DebugInfo_MDNode example_heap 2)
    example_global fresh
  = Some (MDNode [
            ConstInt Int32Type (LLVMDebugVersion + DW_TAG_variable) false;
            ConstNull Int32Type;
            ValueNil;
            MDString "g";
            MDString "main.g";
            MDNode [];
            example_file_node;
            ConstInt Int32Type 9 false;
            example_int_node;
            ConstNull Int1Type;
            ConstAllOnes Int1Type;
            Handle 8], example_int_cached).
Proof.
  apply (GlobalVariableDescriptor_mdNode_fields example_heap 2 example_global
           fresh fresh example_file_cached example_int_cached
           ValueNil example_file_node example_int_node).
  - reflexivity.
  - reflexivity.
  - vm_compute. reflexivity.
  - vm_compute. reflexivity.
Defined.

(** ** Derived types, lines and blocks *)

(** X12.  A derived type lowers to a node of exactly ten fields that ends
    with the node of its base type; file, context and base are asked of the
    cache in this order.  For the pointer type that [NewPointerDerivedType]
    makes this is the pointer tag, empty file, context and name, zeroes, and
    the node of the base. *)
Theorem DerivedTypeDescriptor_mdNode_fields
    (heap : gmap N Object) (n : nat) (d : DerivedTypeDescriptor.t)
    (st st1 st2 st3 : State) (file context base : Value) :
  well_typed (ODerivedType d) = true ->
  DebugInfo_MDNode heap n (of_file (DerivedTypeDescriptor.File d)) st
  = Some (file, st1) ->
  DebugInfo_MDNode heap n (DerivedTypeDescriptor.Context d) st1
  = Some (context, st2) ->
  DebugInfo_MDNode heap n (DerivedTypeDescriptor.Base d) st2
  = Some (base, st3) ->
  DerivedTypeDescriptor.mdNode (DebugInfo_MDNode heap n) d st
  = Some (MDNode [
            ConstInt Int32Type
              (LLVMDebugVersion + DerivedTypeDescriptor.tag d) false;
            file;
            context;
            MDString (DerivedTypeDescriptor.Name d);
            ConstInt Int32Type (DerivedTypeDescriptor.Line d) false;
            ConstInt Int64Type (DerivedTypeDescriptor.Size d) false;
            ConstInt Int64Type (DerivedTypeDescriptor.Alignment d) false;
            ConstInt Int64Type (DerivedTypeDescriptor.Offset d) false;
            ConstInt Int32Type (DerivedTypeDescriptor.Flags d) false;
            base], st3).
Proof.
  intros Hwt Hfile Hctx Hbase. ranges Hwt.
  unfold DerivedTypeDescriptor.mdNode, bind, ret.
  rewrite Hfile, Hctx, Hbase.
  unfold DerivedTypeDescriptor.Tag.
  rewrite add64_version by assumption.
  small_fields.
  reflexivity.
Qed.

Lemma DerivedTypeDescriptor_mdNode_fields_witness :
  DerivedTypeDescriptor.mdNode (DebugInfo_MDNode example_heap 2)
    (NewPointerDerivedType (boxed PBasicTypeDescriptor (Some 2%N))) fresh
  = Some (MDNode [
            ConstInt Int32Type (LLVMDebugVersion + DW_TAG_pointer_type) false;
            ValueNil;
            ValueNil;
            MDString EmptyString;
            ConstInt Int32Type 0 false;
            ConstInt Int64Type 0 false;
            ConstInt Int64Type 0 false;
            ConstInt Int64Type 0 false;
            ConstInt Int32Type 0 false;
            example_int_node], example_after_int).
Proof.
  apply (DerivedTypeDescriptor_mdNode_fields example_heap 2
           (NewPointerDerivedType (boxed PBasicTypeDescriptor (Some 2%N)))
           fresh fresh fresh example_after_int
           ValueNil ValueNil example_int_node).
  - reflexivity.
  - reflexivity.
  - reflexivity.
  - vm_compute. reflexivity.
Defined.

(** X13.  A line lowers to a node of exactly four fields, line, column,
    context and the empty node for the inlined-at location, and a lexical
    block to a node of exactly six fields, version plus tag, file, context,
    line, column and identifier. *)
Theorem Line_and_Block_mdNode_fields
    (heap : gmap N Object) (n : nat)
    (l : LineDescriptor.t) (b : BlockDescriptor.t)
    (st st1 st2 st3 : State) (scope file context : Value) :
  well_typed (OLine l) = true ->
  well_typed (OBlock b) = true ->
  DebugInfo_MDNode heap n (LineDescriptor.Context l) st = Some (scope, st1) ->
  DebugInfo_MDNode heap n (of_file (BlockDescriptor.File b)) st1
  = Some (file, st2) ->
  DebugInfo_MDNode heap n (BlockDescriptor.Context b) st2
  = Some (context, st3) ->
  LineDescriptor.mdNode (DebugInfo_MDNode heap n) l st
  = Some (MDNode [
            ConstInt Int32Type (LineDescriptor.Line l) false;
            ConstInt Int32Type (LineDescriptor.Column l) false;
            scope;
            ValueNil], st1)
  /\ BlockDescriptor.mdNode (DebugInfo_MDNode heap n) b st1
     = Some (MDNode [
               ConstInt Int32Type (LLVMDebugVersion + DW_TAG_lexical_block) false;
               file;
               context;
               ConstInt Int32Type (BlockDescriptor.Line b) false;
               ConstInt Int32Type (BlockDescriptor.Column b) false;
               ConstInt Int32Type (BlockDescriptor.Id b) false], st3).
Proof.
  intros Hl Hb Hscope Hfile Hctx. ranges Hl. ranges Hb.
  split.
  - unfold LineDescriptor.mdNode, bind, ret.
    rewrite Hscope, (MDNode_absent heap n nil_interface st1 eq_refl).
    small_fields.
    reflexivity.
  - unfold BlockDescriptor.mdNode, bind, ret.
    rewrite Hfile, Hctx.
    small_fields.
    reflexivity.
Qed.

Lemma Line_and_Block_mdNode_fields_witness :
  LineDescriptor.mdNode (DebugInfo_MDNode example_heap 2) example_line fresh
  = Some (MDNode [
            ConstInt Int32Type 7 false;
            ConstInt Int32Type 3 false;
            ValueNil;
            ValueNil], fresh)
  /\ BlockDescriptor.mdNode (DebugInfo_MDNode example_heap 2) example_block fresh
     = Some (MDNode [
               ConstInt Int32Type (LLVMDebugVersion + DW_TAG_lexical_block) false;
               example_file_node;
               ValueNil;
               ConstInt Int32Type 11 false;
               ConstInt Int32Type 2 false;
               ConstInt Int32Type 1 false], example_file_cached).
Proof.
  apply (Line_and_Block_mdNode_fields example_heap 2 example_line example_block
           fresh fresh example_file_cached example_file_cached
           ValueNil example_file_node ValueNil).
  - reflexivity.
  - reflexivity.
  - reflexivity.
  - vm_compute. reflexivity.
  - vm_compute. reflexivity.
Defined.

(** ** Contexts *)

(** X14.  A context that is not yet cached is lowered with a single level of
    recursion: its node has exactly two fields, version plus the file tag
    (the embedded file supplies the tag) and the node of the wrapped file,
    which is split directly from the path.  Only the context itself enters
    the cache and the trace; the wrapped file does not. *)
Theorem ContextDescriptor_lowered_through_cache
    (heap : gmap N Object) (n : nat) (a : N) (c : ContextDescriptor.t)
    (st : State) :
  heap !! a = Some (OContext c) ->
  cached st (boxed PContextDescriptor (Some a)) = None ->
  DebugInfo_MDNode heap (S n) (boxed PContextDescriptor (Some a)) st
  = Some (MDNode [
            ConstInt Int32Type (LLVMDebugVersion + DW_TAG_file_type) false;
            FileDescriptor.mdNode (ContextDescriptor.FileDescriptor_ c)],
          store (boxed PContextDescriptor (Some a))
            (MDNode [
               ConstInt Int32Type (LLVMDebugVersion + DW_TAG_file_type) false;
               FileDescriptor.mdNode (ContextDescriptor.FileDescriptor_ c)])
            (enter (boxed PContextDescriptor (Some a)) (make_cache st))).
Proof.
  intros Ha Hc.
  rewrite DebugInfo_MDNode_unfold.
  change (is_nil (boxed PContextDescriptor (Some a))) with false. cbn iota.
  rewrite cached_make_cache, Hc.
  unfold deref. rewrite Ha. reflexivity.
Qed.

Lemma ContextDescriptor_lowered_through_cache_witness :
  DebugInfo_MDNode example_context_heap 1
    (boxed PContextDescriptor (Some 4%N)) example_file_cached
  = Some (MDNode [
            ConstInt Int32Type (LLVMDebugVersion + DW_TAG_file_type) false;
            MDNode [MDString "main.x"; MDString "/src"]],
          store (boxed PContextDescriptor (Some 4%N))
            (MDNode [
               ConstInt Int32Type (LLVMDebugVersion + DW_TAG_file_type) false;
               MDNode [MDString "main.x"; MDString "/src"]])
            (enter (boxed PContextDescriptor (Some 4%N))
               (make_cache example_file_cached))).
Proof.
  apply (ContextDescriptor_lowered_through_cache example_context_heap 0 4%N
           {| ContextDescriptor.FileDescriptor_ := "/src/main.x"%string |}
           example_file_cached).
  - vm_compute. reflexivity.
  - vm_compute. reflexivity.
Defined.

(** ** Paths *)

Lemma FileDescriptor_mdNode_at_slash (dir file : string) :
  has_byte "/" file = false ->
  FileDescriptor.mdNode (dir ++ String "/" file)%string
  = MDNode [MDString file; MDString dir].
Proof.
  intros Hf. unfold FileDescriptor.mdNode.
  rewrite (Split_at_last_slash _ _ Hf).
  unfold path.len, path.slice. rewrite length_append.
  change (String.length (String "/" EmptyString)) with 1%nat.
  replace (0 <? Z.of_nat (String.length dir + 1)) with true
    by (symmetry; apply Z.ltb_lt; lia).
  replace (Z.to_nat (Z.of_nat (String.length dir + 1) - 1))
    with (String.length dir) by lia.
  rewrite get_after, Ascii.eqb_refl.
  replace (Z.to_nat (Z.of_nat (String.length dir + 1) - 1 - 0))
    with (String.length dir) by lia.
  change (Z.to_nat 0) with 0%nat.
  rewrite substring_prefix. reflexivity.
Qed.

Lemma FileDescriptor_mdNode_plain (p : string) :
  has_byte "/" p = false ->
  FileDescriptor.mdNode p = MDNode [MDString p; MDString EmptyString].
Proof.
  intros Hp. unfold FileDescriptor.mdNode.
  rewrite (Split_without_slash _ Hp). reflexivity.
Qed.

(** X15.  Every path lowers to a node of exactly two strings, file name and
    directory, in this order; the file name never contains a separator; and
    either the path has no separator, the file name is the whole path and
    the directory is empty, or the path is the directory, one separator and
    the file name. *)
Theorem FileDescriptor_mdNode_total (p : string) :
  exists dir file : string,
    FileDescriptor.mdNode p = MDNode [MDString file; MDString dir]
    /\ has_byte "/" file = false
    /\ ((has_byte "/" p = false /\ file = p /\ dir = EmptyString)
        \/ p = (dir ++ String "/" file)%string).
Proof.
  destruct (path_cases p) as [Hp|[dir [file [-> Hf]]]].
  - exists EmptyString, p. split; [exact (FileDescriptor_mdNode_plain p Hp)|].
    split; [exact Hp|]. left. repeat split. exact Hp.
  - exists dir, file.
    split; [exact (FileDescriptor_mdNode_at_slash dir file Hf)|].
    split; [exact Hf|]. right. reflexivity.
Qed.

(** X16.  Three edges of the path split.  A file directly under the root
    lowers with an empty directory, to the same node as the bare file name;
    of several separators before the file name only the last is dropped from
    the directory; and a path that ends in a separator lowers to an empty
    file name. *)
Theorem FileDescriptor_mdNode_edges (dir file : string) :
  has_byte "/" file = false ->
  FileDescriptor.mdNode (String "/" file) = FileDescriptor.mdNode file
  /\ FileDescriptor.mdNode (dir ++ String "/" (String "/" file))%string
     = MDNode [MDString file; MDString (dir ++ String "/" EmptyString)]
  /\ FileDescriptor.mdNode (dir ++ String "/" EmptyString)%string
     = MDNode [MDString EmptyString; MDString dir].
Proof.
  intros Hf. split; [|split].
  - rewrite (FileDescriptor_mdNode_plain file Hf).
    exact (FileDescriptor_mdNode_at_slash EmptyString file Hf).
  - rewrite (append_sep dir "/" (String "/" file)).
    exact (FileDescriptor_mdNode_at_slash
             (dir ++ String "/" EmptyString) file Hf).
  - exact (FileDescriptor_mdNode_at_slash dir EmptyString eq_refl).
Qed.

Lemma FileDescriptor_mdNode_edges_witness :
  FileDescriptor.mdNode "/c.x"%string = FileDescriptor.mdNode "c.x"%string
  /\ FileDescriptor.mdNode "/a//c.x"%string
     = MDNode [MDString "c.x"; MDString "/a/"]
  /\ FileDescriptor.mdNode "/a/"%string
     = MDNode [MDString EmptyString; MDString "/a"].
Proof.
  apply (FileDescriptor_mdNode_edges "/a"%string "c.x"%string).
  reflexivity.
Defined.

(** ** Line and argument of a local variable *)

Lemma lor_shifted (l a : Z) :
  0 <= l < 2 ^ 24 -> Z.lor l (Z.shiftl a 24) = l + a * 2 ^ 24.
Proof.
  intros Hl. rewrite Z.shiftl_mul_pow2 by lia.
  assert (Hdisjoint : Z.land l (a * 2 ^ 24) = 0).
  { apply Z.bits_inj'. intros i Hi.
    rewrite Z.land_spec, Z.bits_0.
    destruct (Z.ltb_spec i 24) as [Hlow|Hhigh].
    - rewrite Z.mul_pow2_bits_low by exact Hlow. apply andb_false_r.
    - rewrite <- (Z.mod_small l (2 ^ 24)) by exact Hl.
      rewrite Z.mod_pow2_bits_high by lia. reflexivity. }
  rewrite <- (Z.lxor_lor _ _ Hdisjoint).
  symmetry. apply Z.add_nocarry_lxor. exact Hdisjoint.
Qed.

Lemma line_field_small (l a : Z) :
  0 <= l < 2 ^ 24 -> 0 <= a < 2 ^ 8 ->
  or64 (uint64 l) (shl64 (uint64 a) 24) = l + a * 2 ^ 24.
Proof.
  intros Hl Ha.
  rewrite (uint64_small l) by (unfold is_uint32; lia).
  rewrite (shl64_argument a) by (unfold is_uint32; lia).
  unfold or64. apply lor_shifted. exact Hl.
Qed.

(** X17.  For a line below [2^24] and an argument index below [2^8] the
    combined fifth field of a lowered local variable fits in 32 bits and
    loses nothing: its low 24 bits are the line and its bits from 24 upwards
    are the argument index. *)
Theorem LocalVariableDescriptor_line_and_argument_recoverable
    (f : DebugDescriptor -> M Value) (d : LocalVariableDescriptor.t)
    (st st1 st2 st3 : State) (context file type : Value) :
  0 <= LocalVariableDescriptor.Line d < 2 ^ 24 ->
  0 <= LocalVariableDescriptor.Argument d < 2 ^ 8 ->
  f (LocalVariableDescriptor.Context d) st = Some (context, st1) ->
  f (LocalVariableDescriptor.File d) st1 = Some (file, st2) ->
  f (LocalVariableDescriptor.Type_ d) st2 = Some (type, st3) ->
  exists (v : Value) (field : Z),
    LocalVariableDescriptor.mdNode f d st = Some (v, st3)
    /\ operand 4 v = Some (ConstInt Int32Type field false)
    /\ 0 <= field < 2 ^ 32
    /\ Z.land field (Z.ones 24) = LocalVariableDescriptor.Line d
    /\ Z.shiftr field 24 = LocalVariableDescriptor.Argument d.
Proof.
  intros Hl Ha Hctx Hfile Htype.
  unfold LocalVariableDescriptor.mdNode, bind, ret.
  rewrite Hctx, Hfile, Htype.
  eexists. eexists. split; [reflexivity|]. split; [reflexivity|].
  rewrite (line_field_small _ _ Hl Ha).
  split; [lia|]. split.
  - rewrite Z.land_ones by lia.
    rewrite Z.mod_add by lia. apply Z.mod_small. exact Hl.
  - rewrite Z.shiftr_div_pow2 by lia.
    rewrite Z.div_add by lia. rewrite (Z.div_small _ _ Hl). lia.
Qed.

Lemma LocalVariableDescriptor_line_and_argument_recoverable_witness :
  exists (v : Value) (field : Z),
    LocalVariableDescriptor.mdNode (DebugInfo_MDNode example_heap 2)
      example_local fresh
    = Some (v, example_int_cached)
    /\ operand 4 v = Some (ConstInt Int32Type field false)
    /\ 0 <= field < 2 ^ 32
    /\ Z.land field (Z.ones 24) = 10
    /\ Z.shiftr field 24 = 2.
Proof.
  apply (LocalVariableDescriptor_line_and_argument_recoverable
           (DebugInfo_MDNode example_heap 2) example_local
           fresh fresh example_file_cached example_int_cached
           ValueNil example_file_node example_int_node).
  - vm_compute. split; [discriminate | reflexivity].
  - vm_compute. split; [discriminate | reflexivity].
  - vm_compute. reflexivity.
  - vm_compute. reflexivity.
  - vm_compute. reflexivity.
Defined.

(** X18.  A line of [2^24] or more runs into the bits of the argument index:
    a local variable on line [l + k * 2^24] that is no argument lowers to
    the same node as the [k]-th argument on line [l]. *)
Theorem LocalVariableDescriptor_line_overflows_into_argument
    (f : DebugDescriptor -> M Value) (d : LocalVariableDescriptor.t)
    (st : State) (l k : Z) :
  0 <= l < 2 ^ 24 ->
  0 <= k < 2 ^ 8 ->
  LocalVariableDescriptor.mdNode f
    (with_line_and_argument (l + k * 2 ^ 24) 0 d) st
  = LocalVariableDescriptor.mdNode f (with_line_and_argument l k d) st.
Proof.
  intros Hl Hk.
  unfold LocalVariableDescriptor.mdNode, with_line_and_argument.
  cbn [LocalVariableDescriptor.Context LocalVariableDescriptor.File
       LocalVariableDescriptor.Type_ LocalVariableDescriptor.Name
       LocalVariableDescriptor.Line LocalVariableDescriptor.Argument
       LocalVariableDescriptor.Tag LocalVariableDescriptor.tag].
  rewrite (line_field_small l k Hl Hk).
  rewrite (uint64_small (l + k * 2 ^ 24)) by (unfold is_uint32; lia).
  change (shl64 (uint64 0) 24) with 0.
  unfold or64. rewrite Z.lor_0_r. reflexivity.
Qed.

Lemma LocalVariableDescriptor_line_overflows_into_argument_witness :
  LocalVariableDescriptor.mdNode (DebugInfo_MDNode example_heap 2)
    (with_line_and_argument (10 + 2 * 2 ^ 24) 0 example_local) fresh
  = LocalVariableDescriptor.mdNode (DebugInfo_MDNode example_heap 2)
      (with_line_and_argument 10 2 example_local) fresh.
Proof.
  apply (LocalVariableDescriptor_line_overflows_into_argument
           (DebugInfo_MDNode example_heap 2) example_local fresh 10 2).
  - lia.
  - lia.
Defined.

(** ** The declare intrinsic, end to end *)

(** X19.  [InsertDeclare] judges the catalog's entry after [dbg_declare],
    not the entry of [dbg_declare]: whenever the entry after it reports
    another name than [llvm.dbg.declare], [InsertDeclare] panics with that
    name, whatever the catalog holds under [dbg_declare] itself.  With a
    catalog in which [dbg_declare] is the declare intrinsic and the next
    entry another intrinsic, every call panics. *)
Theorem InsertDeclare_judges_next_entry
    (Module_ Builder : Type) (getDeclaration : Module_ -> Z -> Value)
    (dbg_declare : Z) (IsAFunction : Value -> Value) (Name : Value -> string)
    (CreateCall : Builder -> Value -> list Value -> string -> Value)
    (b : Builder) (module : Module_) (storage md : Value) :
  0 <= dbg_declare < 2 ^ 32 - 1 ->
  Name (getDeclaration module (dbg_declare + 1)) <> "llvm.dbg.declare"%string ->
  InsertDeclare Module_ Builder getDeclaration dbg_declare
    IsAFunction Name CreateCall b module storage md
  = Panic ("Wanted llvm.dbg.declare but got: "
           ++ Name (getDeclaration module (dbg_declare + 1))).
Proof.
  intros Hid Hname. unfold InsertDeclare.
  rewrite (getDbgDeclare_requests_successor Module_ getDeclaration
             dbg_declare module Hid).
  destruct (String.eqb_spec (Name (getDeclaration module (dbg_declare + 1)))
              "llvm.dbg.declare") as [He|_];
    [contradiction|].
  rewrite orb_true_r. reflexivity.
Qed.

Lemma InsertDeclare_judges_next_entry_witness :
  example_Name (example_catalog tt 30) = "llvm.dbg.declare"%string
  /\ InsertDeclare unit unit example_catalog 30
       example_IsAFunction example_Name example_CreateCall
       tt tt (Handle 1) (MDNode [])
     = Panic "Wanted llvm.dbg.declare but got: llvm.dbg.value".
Proof.
  split; [reflexivity|].
  apply (InsertDeclare_judges_next_entry unit unit example_catalog 30
           example_IsAFunction example_Name example_CreateCall
           tt tt (Handle 1) (MDNode [])).
  - lia.
  - discriminate.
Defined.

(** * Termination and sharing *)

(** X20.  Two occurrences of one descriptor in a sequence are lowered to the
    same node: [MDNodes] answers equal descriptors with equal nodes, at
    whatever positions they stand. *)
Theorem MDNodes_shares_nodes (heap : gmap N Object) (n : nat)
    (l : list DebugDescriptor) (st : State) (vs : list Value) (st' : State)
    (i j : nat) (d : DebugDescriptor) :
  DebugInfo_MDNodes heap n l st = Some (vs, st') ->
  l !! i = Some d -> l !! j = Some d ->
  exists v, vs !! i = Some v /\ vs !! j = Some v.
Proof.
  intros H Hi Hj. unfold DebugInfo_MDNodes in H. rewrite info_MDNodes_loop in H.
  destruct (MDNodes_loop_results heap n l st vs st' H) as [_ [Helt _]].
  destruct (Helt i d Hi) as [v [Hvi Hv]].
  destruct (Helt j d Hj) as [w [Hwj Hw]].
  exists v. split; [exact Hvi|]. rewrite Hwj. f_equal.
  destruct (is_nil d); [congruence|].
  rewrite Hv in Hw. injection Hw as <-. reflexivity.
Qed.

Lemma MDNodes_shares_nodes_witness :
  exists v,
    [example_int_node; example_file_node; example_int_node] !! 0%nat = Some v
    /\ [example_int_node; example_file_node; example_int_node] !! 2%nat = Some v.
Proof.
  apply (MDNodes_shares_nodes example_heap 2
           [boxed PBasicTypeDescriptor (Some 2%N); of_file (Some 1%N);
            boxed PBasicTypeDescriptor (Some 2%N)]
           fresh [example_int_node; example_file_node; example_int_node]
           example_after_int 0 2 (boxed PBasicTypeDescriptor (Some 2%N))).
  - vm_compute. reflexivity.
  - reflexivity.
  - reflexivity.
Defined.

(** X21.  In an acyclic descriptor graph [MDNodes] returns for every
    sequence of descriptors that are nil or live, given fuel for the deepest
    of them. *)
Theorem MDNodes_returns_acyclic (heap : gmap N Object) (rank : N -> nat)
    (n : nat) (l : list DebugDescriptor) (st : State) :
  acyclic heap rank = true ->
  (forall d, In d l ->
     is_nil d = true \/ (is_Some (deref heap d) /\ (depth rank d <= n)%nat)) ->
  exists vs st', DebugInfo_MDNodes heap n l st = Some (vs, st').
Proof.
  intros Hac Hl. unfold DebugInfo_MDNodes.
  destruct (MDNodes_loop_returns (DebugInfo_MDNode heap n) l) with (st := st)
    as [vs [st' H]].
  - intros x s Hx. apply (MDNode_returns_acyclic heap rank Hac). apply Hl, Hx.
  - exists vs, st'. rewrite info_MDNodes_loop. exact H.
Qed.

Lemma MDNodes_returns_acyclic_witness :
  exists vs st',
    DebugInfo_MDNodes example_heap 3
      [boxed PBasicTypeDescriptor (Some 2%N); nil_interface; of_file (Some 1%N)]
      fresh
    = Some (vs, st').
Proof.
  apply (MDNodes_returns_acyclic example_heap N.to_nat 3
           [boxed PBasicTypeDescriptor (Some 2%N); nil_interface;
            of_file (Some 1%N)] fresh).
  - vm_compute. reflexivity.
  - intros d [<-|[<-|[<-|[]]]].
    + right. split; [eexists; reflexivity | vm_compute; lia].
    + left. reflexivity.
    + right. split; [eexists; reflexivity | vm_compute; lia].
Defined.

(** X22.  Lowering never returns for a descriptor on a cycle of uncached
    descriptors: if every descriptor of a set is non-nil and uncached and
    refers to a descriptor of the set, the lowering of each of them fails to
    return with every amount of fuel, because the cache entry of a
    descriptor is written only after its references have been lowered. *)
Theorem MDNode_diverges_on_cycles (heap : gmap N Object)
    (W : list DebugDescriptor) (st : State) (x : DebugDescriptor) (n : nat) :
  (forall s, In s W ->
     is_nil s = false /\ cached st s = None
     /\ exists y, edge heap s y /\ In y W) ->
  In x W ->
  DebugInfo_MDNode heap n x st = None.
Proof.
  intros HW Hx.
  apply (pending_untouched heap n W x st); [|exact Hx].
  intros s Hs. destruct (HW s Hs) as [Hnil [Hc [y [He Hy]]]].
  split; [exact Hnil|]. split; [exact Hc|].
  exists y. split; [exact He | left; exact Hy].
Qed.

Lemma MDNode_diverges_on_cycles_witness :
  DebugInfo_MDNode example_cyclic_heap 1000 example_self fresh = None.
Proof.
  apply (MDNode_diverges_on_cycles example_cyclic_heap [example_self] fresh
           example_self 1000).
  - intros s [<-|[]]. split; [reflexivity|]. split; [reflexivity|].
    exists example_self. split; [|left; reflexivity].
    exists (ODerivedType (NewPointerDerivedType example_self)).
    split; [vm_compute; reflexivity | right; right; left; reflexivity].
  - left. reflexivity.
Defined.
